(** * git-switcher: identity resolution and application

    A shallow embedding of [src/extension.ts].  The two asynchronous
    functions [getCurrentUser] and [setUser] are written in a small monad
    that threads the host state (the persisted [users] setting and a log of
    the observable effects) and carries promise rejections as [Thrown]
    outcomes.  The host and the subprocesses are an explicit environment
    [Env]: which workspace folders are open, what each [exec] call reports
    to its callback, and whether a settings update resolves. *)

From Stdlib Require Import String Ascii List Bool Arith Lia.
Import ListNotations.
Open Scope string_scope.
Open Scope list_scope.

(* ================================================================== *)
(** ** Strings and values of the host language *)

(** A field of a [User] object at run time.  The declared type is [string],
    but array destructuring of a one-element array yields [undefined]
    (line 36), so both shapes are values of the model. *)
Inductive value : Type :=
| undefined
| str (s : string).

(** The [User] type of [./types]: [{ name, email }]. *)
Record User : Type := mkUser { name : value; email : value }.

Definition value_eqb (a b : value) : bool :=
  match a, b with
  | undefined, undefined => true
  | str s, str t => String.eqb s t
  | _, _ => false
  end.

(** The predicate passed to [find] on lines 43-45 and 98-100:
    [u.name === user.name && u.email === user.email]. *)
Definition sameUser (user u : User) : bool :=
  value_eqb (name u) (name user) && value_eqb (email u) (email user).

(** Interpolation [${v}] in a template literal. *)
Definition interpolate (v : value) : string :=
  match v with
  | undefined => "undefined"
  | str s => s
  end.

(** Truthiness of a value, as used by [user.name || fallback]. *)
Definition truthy (v : value) : bool :=
  match v with
  | undefined => false
  | str s => negb (String.eqb s "")
  end.

(** Strings are sequences of code units below 256.  On that range the
    characters removed by [String.prototype.trim] are TAB, LF, VT, FF, CR,
    SPACE and NBSP.  The other white space that [trim] removes (U+1680,
    U+2000 to U+200A, U+2028, U+2029, U+202F, U+205F, U+3000, U+FEFF) has
    code units from 256 on: strings that hold it are not strings of this
    development, and no statement below speaks about them. *)
Definition isWhiteSpace (c : ascii) : bool :=
  let n := nat_of_ascii c in
  Nat.eqb n 9 || Nat.eqb n 10 || Nat.eqb n 11 || Nat.eqb n 12
  || Nat.eqb n 13 || Nat.eqb n 32 || Nat.eqb n 160.

Fixpoint trimStart (s : string) : string :=
  match s with
  | EmptyString => EmptyString
  | String c r => if isWhiteSpace c then trimStart r else s
  end.

Fixpoint rev_string (s acc : string) : string :=
  match s with
  | EmptyString => acc
  | String c r => rev_string r (String c acc)
  end.

Definition trimEnd (s : string) : string :=
  rev_string (trimStart (rev_string s "")) "".

(** [s.trim()] *)
Definition trim (s : string) : string := trimEnd (trimStart s).

Definition LF : ascii := ascii_of_nat 10.

(** [s.split("\n")]: the pieces between line feeds; never empty. *)
Fixpoint split_lines (s : string) : list string :=
  match s with
  | EmptyString => [EmptyString]
  | String c r =>
      if Ascii.eqb c LF then EmptyString :: split_lines r
      else match split_lines r with
           | [] => [String c EmptyString]
           | piece :: pieces => String c piece :: pieces
           end
  end.

(** Reading index [i] of an array of strings: out of range is [undefined]. *)
Definition index (parts : list string) (i : nat) : value :=
  match nth_error parts i with
  | Some s => str s
  | None => undefined
  end.

(* ================================================================== *)
(** ** The environment and the observable state *)

(** What the callback of [exec] receives: an error, or the standard output
    of a command that exited with status 0. *)
Inductive ExecResult : Type :=
| ExecErr
| ExecOk (stdout : string).

(** The parts of the host that the functions read.
    - [workspaceFolders] is [vscode.workspace.workspaceFolders]: [None] for
      [undefined], otherwise the [uri.fsPath] of each folder;
    - [exec command cwd] is what the subprocess reports;
    - [updateResolves l] tells whether
      [getConfiguration("git-switcher").update("users", l, Global)]
      resolves ([true]) or rejects ([false]). *)
Record Env : Type := mkEnv {
  workspaceFolders : option (list string);
  exec : string -> option string -> ExecResult;
  updateResolves : list User -> bool
}.

(** Effects that leave the extension, in the order they happen. *)
Inductive Event : Type :=
| EExec (command : string) (cwd : option string)
| EShowWarningMessage (message : string)
| EShowErrorMessage (message : string)
| EConsoleError (message : string)
| EUpdate (usersList : list User)
| EExecuteCommand (command : string)
| EStatusBarText (text : string).

(** The persisted [git-switcher.users] setting and the log of effects. *)
Record World : Type := mkWorld {
  users : list User;
  trace : list Event
}.

(** Reasons a promise is rejected with. *)
Inductive Error : Type :=
| ExecError
| UpdateError.

Inductive Outcome (A : Type) : Type :=
| Returned (a : A)
| Thrown (e : Error).
Arguments Returned {A} a.
Arguments Thrown {A} e.

(** Computations: a world in, an outcome and a world out. *)
Definition M (A : Type) : Type := World -> Outcome A * World.

Definition ret {A} (a : A) : M A := fun w => (Returned a, w).

Definition bind {A B} (m : M A) (k : A -> M B) : M B :=
  fun w =>
    match m w with
    | (Returned a, w') => k a w'
    | (Thrown e, w') => (Thrown e, w')
    end.

Definition throw {A} (e : Error) : M A := fun w => (Thrown e, w).

(** [try { m } catch (err) { handler }] *)
Definition tryCatch {A} (m : M A) (handler : Error -> M A) : M A :=
  fun w =>
    match m w with
    | (Returned a, w') => (Returned a, w')
    | (Thrown e, w') => handler e w'
    end.

Definition emit (e : Event) : M unit :=
  fun w => (Returned tt, mkWorld (users w) (trace w ++ [e])).

Declare Scope js_scope.
Delimit Scope js_scope with js.
Notation "x <- m ;; k" := (bind m (fun x => k))
  (at level 61, m at next level, right associativity) : js_scope.
Notation "m ;;; k" := (bind m (fun _ => k))
  (at level 61, right associativity) : js_scope.
Open Scope js_scope.

(* ================================================================== *)
(** ** The program *)

Definition readCommand : string :=
  "git config user.name && git config user.email".

Definition revParseCommand : string :=
  "git rev-parse --is-inside-work-tree".

Definition quote : string := String (ascii_of_nat 34) EmptyString.

(** The template literal of line 85. *)
Definition setCommand (user : User) (global : bool) : string :=
  let configScope := if global then "--global" else "" in
  ("git config " ++ configScope ++ " user.name " ++ quote
     ++ interpolate (name user) ++ quote
     ++ " && git config " ++ configScope ++ " user.email " ++ quote
     ++ interpolate (email user) ++ quote)%string.

Section Program.

Variable env : Env.

(** [getUsersList] (lines 5-10): the stored array, or [[]] when the setting
    is absent.  The host hands out a copy, so [push] on the result does not
    change the setting until [update] is called. *)
Definition getUsersList : M (list User) :=
  fun w => (Returned (users w), w).

(** [getConfiguration("git-switcher").update("users", usersList, Global)]:
    the setting is replaced as a whole when the promise resolves, and is
    left as it was when it rejects. *)
Definition update (usersList : list User) : M unit :=
  fun w =>
    let w1 := mkWorld (users w) (trace w ++ [EUpdate usersList]) in
    if updateResolves env usersList
    then (Returned tt, mkWorld usersList (trace w1))
    else (Thrown UpdateError, w1).

(** The promise of lines 26-34: [exec] the read command, reject on [err],
    resolve with [stdout.trim()]. *)
Definition execRead (cwd : option string) : M string :=
  emit (EExec readCommand cwd) ;;;
  match exec env readCommand cwd with
  | ExecErr => throw ExecError
  | ExecOk stdout => ret (trim stdout)
  end.

(** Lines 26-38, the probe of the configured identity: the promise and the
    destructuring [const [name, email] = result.split("\n")]. *)
Definition currentIdentity (cwd : option string) : M User :=
  result <- execRead cwd ;;
  let parts := split_lines result in
  ret (mkUser (index parts 0) (index parts 1)).

(** [repoPath || undefined] *)
Definition orUndefined (repoPath : string) : option string :=
  if String.eqb repoPath "" then None else Some repoPath.

(** [getCurrentUser] (lines 12-53). *)
Definition getCurrentUser : M User :=
  currentUser <-
    tryCatch
      (repoPath <-
         match workspaceFolders env with
         | None | Some [] =>
             emit (EShowWarningMessage
                     "No workspace folder found, trying to get global user") ;;;
             ret ""
         | Some (folder :: _) => ret folder
         end ;;
       currentIdentity (orUndefined repoPath))
      (fun _ =>
         emit (EShowErrorMessage "Error getting current user") ;;;
         ret (mkUser (str "") (str ""))) ;;
  usersList <- getUsersList ;;
  match find (sameUser currentUser) usersList with
  | None => update (usersList ++ [currentUser])
  | Some _ => ret tt
  end ;;;
  ret currentUser.

(** The promise of lines 65-73: never rejects. *)
Definition isRepoInitialized (repoPath : string) : M bool :=
  emit (EExec revParseCommand (Some repoPath)) ;;;
  match exec env revParseCommand (Some repoPath) with
  | ExecErr => ret false
  | ExecOk _ => ret true
  end.

(** The promise of lines 83-96. *)
Definition execSet (user : User) (global : bool) (repoPath : string) : M unit :=
  emit (EExec (setCommand user global) (Some repoPath)) ;;;
  match exec env (setCommand user global) (Some repoPath) with
  | ExecErr => emit (EConsoleError "Error setting user:") ;;; throw ExecError
  | ExecOk _ => ret tt
  end.

(** [setUser] (lines 55-111); [None] is the result [undefined]. *)
Definition setUser (user : User) (global : bool) : M (option User) :=
  tryCatch
    (match workspaceFolders env with
     | None | Some [] =>
         emit (EShowErrorMessage "No workspace folder found") ;;;
         ret None
     | Some (repoPath :: _) =>
         initialized <- isRepoInitialized repoPath ;;
         if negb initialized && negb global then
           emit (EShowErrorMessage
                   "Git repository not initialized. Please initialize a repository or set the user globally.") ;;;
           ret None
         else
           execSet user global repoPath ;;;
           usersList <- getUsersList ;;
           match find (sameUser user) usersList with
           | None => update (usersList ++ [user])
           | Some _ => ret tt
           end ;;;
           ret (Some user)
     end)
    (fun _ =>
       emit (EShowErrorMessage "Error setting current user") ;;;
       ret None).

(** The promise chain of [activate] (lines 119-137): the setup command is
    requested when no user is stored, then the status bar shows the current
    user's name, a fallback for a falsy name, or, when [getCurrentUser]
    rejects, the text of the [.catch] handler. *)
Definition activate : M unit :=
  stored <- getUsersList ;;
  (if Nat.eqb (length stored) 0
   then emit (EExecuteCommand "git-switcher.setupUser")
   else ret tt) ;;;
  tryCatch
    (user <- getCurrentUser ;;
     emit (EStatusBarText
             (if truthy (name user) then interpolate (name user)
              else "Git Switcher - No User Set")))
    (fun _ => emit (EStatusBarText "Git Switcher - Setup Required")).

End Program.

(** Each user-initiated action runs one of the two operations in the
    environment of that moment. *)
Inductive Op : Type :=
| Resolve (env : Env)
| Apply (env : Env) (user : User) (global : bool).

Definition runOp (o : Op) : M (option User) :=
  match o with
  | Resolve env => user <- getCurrentUser env ;; ret (Some user)
  | Apply env user global => setUser env user global
  end.

(** A sequence of actions; a rejected one does not stop the later ones. *)
Fixpoint runOps (ops : list Op) (w : World)
  : list (Outcome (option User)) * World :=
  match ops with
  | [] => ([], w)
  | o :: rest =>
      let (r, w1) := runOp o w in
      let (rs, w2) := runOps rest w1 in
      (r :: rs, w2)
  end.

(** The identity an operation is about: the one handed to [setUser], or
    the value of [currentUser] when the [try] statement of
    [getCurrentUser] is left. *)
Definition probeCwd (env : Env) : option string :=
  match workspaceFolders env with
  | None | Some [] => orUndefined ""
  | Some (folder :: _) => orUndefined folder
  end.

Definition emptyUser : User := mkUser (str "") (str "").

Definition probedUser (env : Env) : User :=
  match exec env readCommand (probeCwd env) with
  | ExecErr => emptyUser
  | ExecOk stdout =>
      let parts := split_lines (trim stdout) in
      mkUser (index parts 0) (index parts 1)
  end.

Definition subject (o : Op) : User :=
  match o with
  | Resolve env => probedUser env
  | Apply _ user _ => user
  end.

(** The condition of the specification for a probe error, in its words:
    the subprocess exits non-zero, or its output does not contain both the
    name line and the email line. *)
Definition hasBothLines (stdout : string) : bool :=
  Nat.leb 2 (length (split_lines (trim stdout))).

Definition specProbeError (r : ExecResult) : Prop :=
  match r with
  | ExecErr => True
  | ExecOk stdout => hasBothLines stdout = false
  end.

Definition isThrown {A} (r : Outcome A * World) : Prop :=
  match fst r with
  | Thrown _ => True
  | Returned _ => False
  end.

(** The effects of the [try] statement of [getCurrentUser]. *)
Definition probeEvents (env : Env) : list Event :=
  match workspaceFolders env with
  | None | Some [] =>
      [EShowWarningMessage
         "No workspace folder found, trying to get global user"]
  | Some (_ :: _) => []
  end
  ++ [EExec readCommand (probeCwd env)]
  ++ match exec env readCommand (probeCwd env) with
     | ExecErr => [EShowErrorMessage "Error getting current user"]
     | ExecOk _ => []
     end.

(** The notices of [setUser]. *)
Definition noWorkspaceMessage : string := "No workspace folder found".

Definition notInitializedMessage : string :=
  "Git repository not initialized. Please initialize a repository or set the user globally.".

Definition setErrorMessage : string := "Error setting current user".

(** Environments and stores of the examples. *)
Definition line (s : string) : string := (s ++ String LF "")%string.

Definition onlyRead (stdout : string) (c : string) (cwd : option string)
  : ExecResult :=
  if String.eqb c readCommand then ExecOk stdout else ExecErr.

Definition noGit (c : string) (cwd : option string) : ExecResult := ExecErr.

Definition gitOutsideRepo (c : string) (cwd : option string) : ExecResult :=
  if String.eqb c revParseCommand then ExecErr else ExecOk "".

Definition alice : User := mkUser (str "Alice") (str "alice@x.com").
Definition bob : User := mkUser (str "Bob") (str "bob@x.com").
Definition carol : User := mkUser (str "Carol") (str "carol@x.com").

Definition envSingleLine : Env :=
  mkEnv (Some ["/repo"]) (onlyRead (line "Alice")) (fun _ => true).

Definition envNoGitReadOnly : Env :=
  mkEnv (Some ["/repo"]) noGit (fun _ => false).

Definition envNoGit : Env :=
  mkEnv (Some ["/repo"]) noGit (fun _ => true).

Definition envAliceReadOnly : Env :=
  mkEnv (Some ["/repo"])
        (onlyRead (line "Alice" ++ line "alice@x.com")%string)
        (fun _ => false).

Definition envOutsideRepo : Env :=
  mkEnv (Some ["/home"]) gitOutsideRepo (fun _ => true).

Definition envNoWorkspace : Env :=
  mkEnv None gitOutsideRepo (fun _ => true).

Definition emptyWorld : World := mkWorld [] [].

Definition sampleOps : list Op :=
  [Apply envOutsideRepo bob true;
   Apply envOutsideRepo carol false;
   Apply envOutsideRepo bob true;
   Resolve envNoGit;
   Resolve envAliceReadOnly].

(* ================================================================== *)
(** ** The setup command *)

(** A [vscode.QuickPickItem] as the handler builds and reads it. *)
Record QuickPickItem : Type := mkItem { label : value; description : value }.

Definition addNewLabel : string := "$(plus) Add new user".

(** The items of lines 143-152: the entry for a new user, then one item per
    stored user. *)
Definition userItems (usersList : list User) : list QuickPickItem :=
  mkItem (str addNewLabel) undefined
  :: map (fun user => mkItem (name user) (email user)) usersList.

(** The items of lines 169-175 and 205-211. *)
Definition scopeItems : list QuickPickItem :=
  [mkItem (str "Local") (str "Set user for the current repository");
   mkItem (str "Global") (str "Set user globally")].

(** What the person at the keyboard does: the position picked in each
    quick pick ([None] when it is dismissed) and what each input box
    resolves with ([undefined] when it is dismissed). *)
Record Answers : Type := mkAnswers {
  pickedUser : option nat;
  enteredName : value;
  enteredEmail : value;
  pickedScope : option nat
}.

(** [showQuickPick(items)] resolves with one of the items or [undefined]. *)
Definition showQuickPick (items : list QuickPickItem) (answer : option nat)
  : option QuickPickItem :=
  match answer with
  | None => None
  | Some i => nth_error items i
  end.

(** What the handler changes on screen: the text of the status bar item it
    closes over, and the information messages shown so far. *)
Record Screen : Type := mkScreen {
  statusBarText : value;
  informationMessages : list string
}.

(** [v || d] *)
Definition orElse (v : value) (d : string) : value :=
  if truthy v then v else str d.

Definition scopeWord (global : bool) : string :=
  if global then "globally" else "locally".

(** The handler of [git-switcher.setupUser] (lines 141-229). *)
Definition setupUser (env : Env) (answers : Answers) (screen : Screen)
  : M Screen :=
  usersList <- getUsersList ;;
  match showQuickPick (userItems usersList) (pickedUser answers) with
  | None => ret screen
  | Some selectedUser =>
      if value_eqb (label selectedUser) (str addNewLabel) then
        let name' := enteredName answers in
        let email' := enteredEmail answers in
        if truthy name' && truthy email' then
          let newUser := mkUser name' email' in
          match showQuickPick scopeItems (pickedScope answers) with
          | None => ret screen
          | Some selectedScope =>
              let global := value_eqb (label selectedScope) (str "Global") in
              result <- setUser env newUser global ;;
              match result with
              | Some applied =>
                  ret (mkScreen (name applied)
                         (informationMessages screen
                          ++ [(interpolate (name newUser) ++ " added and set "
                               ++ scopeWord global)%string]))
              | None => ret screen
              end
          end
        else
          emit (EShowErrorMessage "All fields are required to add a new user") ;;;
          ret screen
      else
        let user :=
          mkUser (label selectedUser) (orElse (description selectedUser) "") in
        match showQuickPick scopeItems (pickedScope answers) with
        | None => ret screen
        | Some selectedScope =>
            let global := value_eqb (label selectedScope) (str "Global") in
            result <- setUser env user global ;;
            match result with
            | Some applied =>
                ret (mkScreen (name applied)
                       (informationMessages screen
                        ++ [(interpolate (label selectedUser)
                             ++ " selected and set "
                             ++ scopeWord global)%string]))
            | None => ret screen
            end
        end
  end.

(** The steps of the handler after a user and a scope are known. *)
Definition afterApply (shown : string) (screen : Screen)
    (r : Outcome (option User) * World) : Outcome Screen * World :=
  match r with
  | (Returned (Some applied), w') =>
      (Returned (mkScreen (name applied)
                   (informationMessages screen ++ [shown])), w')
  | (Returned None, w') => (Returned screen, w')
  | (Thrown e, w') => (Thrown e, w')
  end.

(* ================================================================== *)
(** ** Shapes of strings and of logs *)

Fixpoint noLineFeed (s : string) : bool :=
  match s with
  | EmptyString => true
  | String c r => negb (Ascii.eqb c LF) && noLineFeed r
  end.

(** The first character exists and is not white space. *)
Definition startsPlain (s : string) : bool :=
  match s with
  | EmptyString => false
  | String c _ => negb (isWhiteSpace c)
  end.

(** Some character is not white space. *)
Fixpoint hasPlain (s : string) : bool :=
  match s with
  | EmptyString => false
  | String c r => negb (isWhiteSpace c) || hasPlain r
  end.

Definition isErrorNotice (e : Event) : bool :=
  match e with
  | EShowErrorMessage _ => true
  | _ => false
  end.

Definition isExec (e : Event) : bool :=
  match e with
  | EExec _ _ => true
  | _ => false
  end.

Definition isStatusBarText (e : Event) : bool :=
  match e with
  | EStatusBarText _ => true
  | _ => false
  end.

(** The same host with another answer to the repository query. *)
Definition withRevParse (r : ExecResult) (env : Env) : Env :=
  mkEnv (workspaceFolders env)
        (fun c cwd =>
           if String.eqb c revParseCommand then r else exec env c cwd)
        (updateResolves env).

(** The same host with other folders after the first one. *)
Definition withOtherFolders (others : list string) (env : Env) : Env :=
  mkEnv (match workspaceFolders env with
         | Some (first :: _) => Some (first :: others)
         | short => short
         end)
        (exec env) (updateResolves env).

Definition gitInsideRepo (c : string) (cwd : option string) : ExecResult :=
  ExecOk "".

Definition envInsideRepo : Env :=
  mkEnv (Some ["/repo"]) gitInsideRepo (fun _ => true).

Definition envAlice : Env :=
  mkEnv (Some ["/repo"])
        (onlyRead (line "Alice" ++ line "alice@x.com")%string)
        (fun _ => true).

Definition blankScreen : Screen := mkScreen (str "") [].

Definition envThreeLines : Env :=
  mkEnv (Some ["/repo"])
        (onlyRead (line "Alice" ++ line "alice@x.com" ++ line "more")%string)
        (fun _ => true).

Definition envPadded : Env :=
  mkEnv (Some ["/repo"])
        (onlyRead (line "  Alice" ++ line "alice@x.com  ")%string)
        (fun _ => true).

Definition nameless : User := mkUser (str "Dana") undefined.

Definition addLabelUser : User := mkUser (str addNewLabel) (str "x@x.com").

(* ================================================================== *)
(** ** Equality of identities and lookup in the store *)

Lemma value_eqb_eq (a b : value) : value_eqb a b = true <-> a = b.
Proof.
  destruct a as [|s], b as [|t]; simpl; split; intros H;
    try reflexivity; try discriminate.
  - apply String.eqb_eq in H. now subst.
  - injection H as ->. apply String.eqb_refl.
Qed.

Lemma sameUser_eq (user u : User) : sameUser user u = true <-> u = user.
Proof.
  unfold sameUser. rewrite andb_true_iff, !value_eqb_eq.
  destruct user, u; simpl. split.
  - intros [-> ->]. reflexivity.
  - intros H. injection H as -> ->. split; reflexivity.
Qed.

Lemma User_eq_dec (u v : User) : {u = v} + {u <> v}.
Proof.
  destruct (sameUser v u) eqn:E.
  - left. now apply sameUser_eq.
  - right. intros H. apply sameUser_eq in H. congruence.
Defined.

Lemma find_sameUser_None (user : User) (l : list User) :
  find (sameUser user) l = None <-> ~ In user l.
Proof.
  induction l as [|v l IH]; simpl.
  - tauto.
  - destruct (sameUser user v) eqn:E.
    + apply sameUser_eq in E. subst. split; [discriminate | tauto].
    + rewrite IH. split.
      * intros H [H1 | H1]; [| tauto].
        subst. assert (sameUser user user = true) by now apply sameUser_eq.
        congruence.
      * tauto.
Qed.

Lemma find_sameUser_Some (user v : User) (l : list User) :
  find (sameUser user) l = Some v -> In user l.
Proof.
  intros H. apply find_some in H. destruct H as [H1 H2].
  apply sameUser_eq in H2. now subst.
Qed.

(* ================================================================== *)
(** ** What one call does *)

Ltac run_program :=
  cbv [getCurrentUser setUser activate currentIdentity execRead
       isRepoInitialized execSet update getUsersList tryCatch bind ret
       throw emit runOp isThrown];
  cbn [users trace fst snd].

(** [getCurrentUser], one equation per way through it. *)
Lemma getCurrentUser_run (env : Env) (w : World) :
  getCurrentUser env w =
  let u := probedUser env in
  let t := trace w ++ probeEvents env in
  match find (sameUser u) (users w) with
  | Some _ => (Returned u, mkWorld (users w) t)
  | None =>
      let l := users w ++ [u] in
      if updateResolves env l
      then (Returned u, mkWorld l (t ++ [EUpdate l]))
      else (Thrown UpdateError, mkWorld (users w) (t ++ [EUpdate l]))
  end.
Proof.
  run_program. unfold probedUser, probeEvents, probeCwd, emptyUser.
  destruct (workspaceFolders env) as [[|folder rest]|];
    cbn [users trace];
    match goal with
    | |- context [exec env readCommand ?c] =>
        destruct (exec env readCommand c)
    end;
    cbn [users trace];
    match goal with
    | |- context [find ?f ?l] => destruct (find f l)
    end;
    cbn [users trace];
    try match goal with
    | |- context [updateResolves env ?l] => destruct (updateResolves env l)
    end;
    cbn [users trace app];
    rewrite <- ?app_assoc; reflexivity.
Qed.

(** [setUser], one equation per way through it. *)
Lemma setUser_run (env : Env) (user : User) (global : bool) (w : World) :
  setUser env user global w =
  match workspaceFolders env with
  | None | Some [] =>
      (Returned None,
       mkWorld (users w) (trace w ++ [EShowErrorMessage noWorkspaceMessage]))
  | Some (repoPath :: _) =>
      let t1 := trace w ++ [EExec revParseCommand (Some repoPath)] in
      match exec env revParseCommand (Some repoPath), global with
      | ExecErr, false =>
          (Returned None,
           mkWorld (users w) (t1 ++ [EShowErrorMessage notInitializedMessage]))
      | _, _ =>
          let t2 := t1 ++ [EExec (setCommand user global) (Some repoPath)] in
          match exec env (setCommand user global) (Some repoPath) with
          | ExecErr =>
              (Returned None,
               mkWorld (users w)
                 (t2 ++ [EConsoleError "Error setting user:";
                         EShowErrorMessage setErrorMessage]))
          | ExecOk _ =>
              match find (sameUser user) (users w) with
              | Some _ => (Returned (Some user), mkWorld (users w) t2)
              | None =>
                  let l := users w ++ [user] in
                  if updateResolves env l
                  then (Returned (Some user), mkWorld l (t2 ++ [EUpdate l]))
                  else (Returned None,
                        mkWorld (users w)
                          (t2 ++ [EUpdate l;
                                  EShowErrorMessage setErrorMessage]))
              end
          end
      end
  end.
Proof.
  run_program.
  destruct (workspaceFolders env) as [[|repoPath rest]|];
    cbn [users trace]; try reflexivity.
  destruct (exec env revParseCommand (Some repoPath)), global;
    cbn [users trace negb andb]; try reflexivity;
    destruct (exec env (setCommand user _) (Some repoPath));
    cbn [users trace]; rewrite <- ?app_assoc; try reflexivity;
    destruct (find (sameUser user) (users w));
    cbn [users trace]; try reflexivity;
    destruct (updateResolves env (users w ++ [user]));
    cbn [users trace]; rewrite <- ?app_assoc; reflexivity.
Qed.

Lemma setCommand_not_revParse (user : User) (global : bool) :
  setCommand user global <> revParseCommand.
Proof.
  unfold setCommand, revParseCommand. destruct global; simpl; discriminate.
Qed.

Lemma EExec_command (c c' : string) (cwd cwd' : option string) :
  EExec c cwd = EExec c' cwd' -> c = c'.
Proof. intros H. now injection H. Qed.

(** No command of the subprocess log is new: every [exec] of [c] found in
    [t ++ added] was already in [t]. *)
Lemma exec_not_added (c : string) (cwd : option string)
    (t added : list Event) :
  (forall e, In e added -> e <> EExec c cwd) ->
  In (EExec c cwd) (t ++ added) -> In (EExec c cwd) t.
Proof.
  intros H Hin. apply in_app_or in Hin. destruct Hin as [Hin | Hin].
  - exact Hin.
  - exfalso. exact (H _ Hin eq_refl).
Qed.

(* ================================================================== *)
(** ** The gates of [setUser] *)

(** C1. With a workspace folder open whose repository query reports an
    error, [setUser user false] shows the "not initialized" notice and
    returns [undefined]; the stored users are the same; the only command
    run is the repository query, so every run of the write command in the
    log was there before the call. *)
Theorem setUser_local_outside_repository
    (env : Env) (user : User) (w : World) (repoPath : string)
    (rest : list string) :
  workspaceFolders env = Some (repoPath :: rest) ->
  exec env revParseCommand (Some repoPath) = ExecErr ->
  setUser env user false w =
    (Returned None,
     mkWorld (users w)
       (trace w ++ [EExec revParseCommand (Some repoPath);
                    EShowErrorMessage notInitializedMessage]))
  /\ users (snd (setUser env user false w)) = users w
  /\ forall global cwd,
       In (EExec (setCommand user global) cwd)
          (trace (snd (setUser env user false w))) ->
       In (EExec (setCommand user global) cwd) (trace w).
Proof.
  intros Hws Hrepo.
  assert (Hrun : setUser env user false w =
    (Returned None,
     mkWorld (users w)
       (trace w ++ [EExec revParseCommand (Some repoPath);
                    EShowErrorMessage notInitializedMessage]))).
  { rewrite setUser_run, Hws, Hrepo. cbn zeta.
    rewrite <- app_assoc. reflexivity. }
  rewrite Hrun. cbn [snd users trace].
  split; [reflexivity | split; [reflexivity |]].
  intros global cwd. apply exec_not_added.
  intros e [<- | [<- | []]]; [| discriminate].
  intros H. apply EExec_command in H.
  symmetry in H. exact (setCommand_not_revParse _ _ H).
Qed.

(** C8. Without a workspace folder ([workspaceFolders] undefined or empty)
    [setUser] shows "No workspace folder found" and returns [undefined],
    for either scope: the stored users are the same and no command at all
    is run. *)
Theorem setUser_no_workspace
    (env : Env) (user : User) (global : bool) (w : World) :
  workspaceFolders env = None \/ workspaceFolders env = Some [] ->
  setUser env user global w =
    (Returned None,
     mkWorld (users w) (trace w ++ [EShowErrorMessage noWorkspaceMessage]))
  /\ users (snd (setUser env user global w)) = users w
  /\ forall c cwd,
       In (EExec c cwd) (trace (snd (setUser env user global w))) ->
       In (EExec c cwd) (trace w).
Proof.
  intros Hws.
  assert (Hrun : setUser env user global w =
    (Returned None,
     mkWorld (users w) (trace w ++ [EShowErrorMessage noWorkspaceMessage]))).
  { rewrite setUser_run. destruct Hws as [-> | ->]; reflexivity. }
  rewrite Hrun. cbn [snd users trace].
  split; [reflexivity | split; [reflexivity |]].
  intros c cwd. apply exec_not_added.
  intros e [<- | []]. discriminate.
Qed.

(** C9. When the write command reports an error, [setUser] returns
    [undefined], the stored users are the same as before the call, and the
    registration is skipped: the call adds no settings update to the log. *)
Theorem setUser_write_failure_keeps_store
    (env : Env) (user : User) (global : bool) (w : World)
    (repoPath : string) (rest : list string) :
  workspaceFolders env = Some (repoPath :: rest) ->
  exec env (setCommand user global) (Some repoPath) = ExecErr ->
  fst (setUser env user global w) = Returned None
  /\ users (snd (setUser env user global w)) = users w
  /\ forall l,
       In (EUpdate l) (trace (snd (setUser env user global w))) ->
       In (EUpdate l) (trace w).
Proof.
  intros Hws Hset. rewrite setUser_run, Hws, Hset.
  assert (Hkeep : forall l (t added : list Event),
            (forall e, In e added -> e <> EUpdate l) ->
            In (EUpdate l) (t ++ added) -> In (EUpdate l) t).
  { intros l t added H Hin. apply in_app_or in Hin.
    destruct Hin as [Hin | Hin]; [exact Hin |].
    exfalso. exact (H _ Hin eq_refl). }
  destruct (exec env revParseCommand (Some repoPath)), global;
    cbn [fst snd users trace];
    (split; [reflexivity | split; [reflexivity |]]);
    intros l; rewrite <- ?app_assoc; apply Hkeep;
    cbn [app In]; intros e He;
    repeat (destruct He as [<- | He]; [discriminate |]);
    destruct He.
Qed.

(** C5. With a workspace folder open that is not inside a repository, a
    user that is not stored yet, a write command that exits with status 0
    and a settings update that resolves, [setUser user true] runs the
    write command with [--global], returns the user, and the stored users
    are the former ones followed by that user. *)
Theorem setUser_global_outside_repository
    (env : Env) (user : User) (w : World) (repoPath : string)
    (rest : list string) (stdout : string) :
  workspaceFolders env = Some (repoPath :: rest) ->
  exec env revParseCommand (Some repoPath) = ExecErr ->
  ~ In user (users w) ->
  exec env (setCommand user true) (Some repoPath) = ExecOk stdout ->
  updateResolves env (users w ++ [user]) = true ->
  fst (setUser env user true w) = Returned (Some user)
  /\ users (snd (setUser env user true w)) = users w ++ [user]
  /\ In (EExec (setCommand user true) (Some repoPath))
        (trace (snd (setUser env user true w))).
Proof.
  intros Hws Hrepo Habsent Hset Hupd.
  apply find_sameUser_None in Habsent.
  rewrite setUser_run, Hws, Hrepo, Hset, Habsent. cbn zeta. rewrite Hupd.
  cbn [fst snd users trace].
  split; [reflexivity | split; [reflexivity |]].
  apply in_or_app. left. apply in_or_app. right. left. reflexivity.
Qed.

(** C10. [setUser] never rejects; its result is [undefined] or the user
    it was given.  It is [undefined] without a workspace folder, for the
    local scope outside a repository, when the write command fails, and
    when the settings update of a user not stored yet rejects; it is the
    user exactly when none of these happens. *)
Theorem setUser_result
    (env : Env) (user : User) (global : bool) (w : World) :
  (exists r, fst (setUser env user global w) = Returned r
             /\ (r = None \/ r = Some user))
  /\ (workspaceFolders env = None \/ workspaceFolders env = Some [] ->
      fst (setUser env user global w) = Returned None)
  /\ (forall repoPath rest,
        workspaceFolders env = Some (repoPath :: rest) ->
        (exec env revParseCommand (Some repoPath) = ExecErr ->
         global = false ->
         fst (setUser env user global w) = Returned None)
        /\ (exec env (setCommand user global) (Some repoPath) = ExecErr ->
            fst (setUser env user global w) = Returned None)
        /\ (~ In user (users w) ->
            updateResolves env (users w ++ [user]) = false ->
            fst (setUser env user global w) = Returned None)
        /\ (fst (setUser env user global w) = Returned (Some user) <->
            (global = true
             \/ exec env revParseCommand (Some repoPath) <> ExecErr)
            /\ exec env (setCommand user global) (Some repoPath) <> ExecErr
            /\ (In user (users w)
                \/ updateResolves env (users w ++ [user]) = true))).
Proof.
  rewrite setUser_run.
  destruct (workspaceFolders env) as [[|p ps]|].
  - split; [eexists; split; [reflexivity | now left] |].
    split; [reflexivity |]. intros ? ? H. discriminate.
  - pose proof (find_sameUser_None user (users w)) as Hnone.
    assert (Hsome : forall v, find (sameUser user) (users w) = Some v ->
                              In user (users w))
      by (intros v; apply find_sameUser_Some).
    split; [| split; [intros [H | H]; discriminate |]].
    + destruct (exec env revParseCommand (Some p)), global;
        cbn zeta;
        try match goal with
            | |- context [exec env (setCommand user ?g) (Some p)] =>
                destruct (exec env (setCommand user g) (Some p))
            end;
        try destruct (find (sameUser user) (users w));
        try destruct (updateResolves env (users w ++ [user]));
        cbn [fst]; eexists; (split; [reflexivity | tauto]).
    + intros repoPath rest H. injection H as <- <-.
      destruct (exec env revParseCommand (Some p)) eqn:Er, global;
        cbn zeta;
        try match goal with
            | |- context [exec env (setCommand user ?g) (Some p)] =>
                destruct (exec env (setCommand user g) (Some p)) eqn:Es
            end;
        try (destruct (find (sameUser user) (users w)) eqn:Ef;
             [specialize (Hsome _ eq_refl) | ]);
        try destruct (updateResolves env (users w ++ [user])) eqn:Eu;
        cbn [fst];
        repeat split; intros; try reflexivity; try discriminate;
          try tauto; try congruence;
          try (exfalso; intuition congruence);
          try (right; congruence);
          try (left; congruence).
  - split; [eexists; split; [reflexivity | now left] |].
    split; [reflexivity |]. intros ? ? H. discriminate.
Qed.

(* ================================================================== *)
(** ** The probe of the configured identity *)

Lemma split_lines_not_nil (s : string) : split_lines s <> [].
Proof.
  induction s as [|c r IH]; simpl.
  - discriminate.
  - destruct (Ascii.eqb c LF); [discriminate |].
    destruct (split_lines r); discriminate.
Qed.

Lemma index_1_undefined (parts : list string) :
  index parts 1 = undefined <-> Nat.leb 2 (length parts) = false.
Proof.
  unfold index. rewrite Nat.leb_gt.
  destruct (nth_error parts 1) eqn:E.
  - split; [discriminate |]. intros H.
    assert (nth_error parts 1 = None) by (apply nth_error_None; lia).
    congruence.
  - apply nth_error_None in E. split; [lia | reflexivity].
Qed.

(** C6, as the code has it.  [currentIdentity] fails exactly when the
    callback of [exec] receives an error.  When the command exits with
    status 0 it does not fail: the name is the first line of the trimmed
    output, and the email is the second line, or [undefined] when the
    trimmed output does not have two lines. *)
Theorem currentIdentity_fails_iff_exec_err
    (env : Env) (cwd : option string) (w : World) :
  (isThrown (currentIdentity env cwd w) <->
   exec env readCommand cwd = ExecErr)
  /\ forall stdout,
       exec env readCommand cwd = ExecOk stdout ->
       exists first second,
         fst (currentIdentity env cwd w) = Returned (mkUser (str first) second)
         /\ nth_error (split_lines (trim stdout)) 0 = Some first
         /\ second = index (split_lines (trim stdout)) 1
         /\ (second = undefined <-> hasBothLines stdout = false).
Proof.
  run_program. destruct (exec env readCommand cwd) as [|out]; cbn [fst].
  - split; [tauto | discriminate].
  - split; [split; [tauto | discriminate] |].
    intros stdout H. injection H as <-.
    destruct (split_lines (trim out)) as [|first others] eqn:E.
    + now apply split_lines_not_nil in E.
    + exists first, (index (first :: others) 1).
      repeat split; try reflexivity.
      * unfold hasBothLines. rewrite E. apply index_1_undefined.
      * unfold hasBothLines. rewrite E. apply index_1_undefined.
Qed.

(** C6 at a concrete output: the read command exits with status 0 and
    prints the single line [Alice].  The output does not contain both
    lines, yet the probe returns the identity with name [Alice] and an
    [undefined] email instead of failing; so failing does not coincide
    with the condition of the specification. *)
Lemma currentIdentity_single_line_is_parsed :
  exec envSingleLine readCommand (Some "/repo") = ExecOk (line "Alice")
  /\ hasBothLines (line "Alice") = false
  /\ fst (currentIdentity envSingleLine (Some "/repo") emptyWorld)
     = Returned (mkUser (str "Alice") undefined)
  /\ ~ (forall env cwd w,
          isThrown (currentIdentity env cwd w) <->
          specProbeError (exec env readCommand cwd)).
Proof.
  split; [reflexivity |]. split; [reflexivity |]. split; [reflexivity |].
  intros H.
  apply (proj2 (H envSingleLine (Some "/repo") emptyWorld)).
  reflexivity.
Qed.

(* ================================================================== *)
(** ** Failures inside [getCurrentUser] *)

Lemma probedUser_read_failure (env : Env) :
  exec env readCommand (probeCwd env) = ExecErr -> probedUser env = emptyUser.
Proof. intros H. unfold probedUser. now rewrite H. Qed.

Lemma count_occ_appended (l : list User) (u : User) :
  ~ In u l -> count_occ User_eq_dec (l ++ [u]) u = 1.
Proof.
  intros H. rewrite count_occ_app.
  rewrite (proj1 (count_occ_not_In User_eq_dec l u) H).
  simpl. destruct (User_eq_dec u u); [reflexivity | congruence].
Qed.

(** C4, as the code has it.  When the read command fails, the error is
    caught, a notice is shown and the current user is the empty identity.
    If the store holds it already, it is returned and the store is the
    same.  If the store does not hold it and the settings update resolves,
    it is appended, the store then holds it exactly once, and it is
    returned.  If the update rejects, [getCurrentUser] rejects and the
    store is the same. *)
Theorem getCurrentUser_read_failure (env : Env) (w : World) :
  exec env readCommand (probeCwd env) = ExecErr ->
  In (EShowErrorMessage "Error getting current user")
     (trace (snd (getCurrentUser env w)))
  /\ (In emptyUser (users w) ->
      fst (getCurrentUser env w) = Returned emptyUser
      /\ users (snd (getCurrentUser env w)) = users w)
  /\ (~ In emptyUser (users w) ->
      updateResolves env (users w ++ [emptyUser]) = true ->
      fst (getCurrentUser env w) = Returned emptyUser
      /\ users (snd (getCurrentUser env w)) = users w ++ [emptyUser]
      /\ count_occ User_eq_dec (users (snd (getCurrentUser env w))) emptyUser
         = 1)
  /\ (~ In emptyUser (users w) ->
      updateResolves env (users w ++ [emptyUser]) = false ->
      fst (getCurrentUser env w) = Thrown UpdateError
      /\ users (snd (getCurrentUser env w)) = users w).
Proof.
  intros Hread. rewrite getCurrentUser_run.
  rewrite (probedUser_read_failure env Hread). cbn zeta.
  assert (Hnotice : In (EShowErrorMessage "Error getting current user")
                       (probeEvents env)).
  { unfold probeEvents. rewrite Hread.
    apply in_or_app. right. right. left. reflexivity. }
  pose proof (find_sameUser_None emptyUser (users w)) as Hnone.
  destruct (find (sameUser emptyUser) (users w)) as [v|] eqn:Ef.
  - apply find_sameUser_Some in Ef. cbn [fst snd users trace].
    split; [apply in_or_app; now right |].
    split; [intros _; split; reflexivity |].
    split; intros Habsent; contradiction.
  - assert (Habsent : ~ In emptyUser (users w)) by now apply Hnone.
    destruct (updateResolves env (users w ++ [emptyUser])) eqn:Eu;
      cbn [fst snd users trace];
      (split; [apply in_or_app; left; apply in_or_app; now right |]);
      (split; [intros Hin; contradiction |]);
      split; intros _ Hu; try discriminate.
    + split; [reflexivity | split; [reflexivity |]].
      now apply count_occ_appended.
    + split; reflexivity.
Qed.

(** C4 at a concrete run: git does not work in the workspace folder and
    the settings cannot be written.  The read command fails, and
    [getCurrentUser] rejects; the empty identity is not stored.  So a
    failing read command does not always end in a returned and registered
    empty identity. *)
Lemma getCurrentUser_read_failure_can_reject :
  exec envNoGitReadOnly readCommand (probeCwd envNoGitReadOnly) = ExecErr
  /\ fst (getCurrentUser envNoGitReadOnly emptyWorld) = Thrown UpdateError
  /\ users (snd (getCurrentUser envNoGitReadOnly emptyWorld)) = []
  /\ ~ (forall env w,
          exec env readCommand (probeCwd env) = ExecErr ->
          fst (getCurrentUser env w) = Returned emptyUser
          /\ count_occ User_eq_dec (users (snd (getCurrentUser env w)))
               emptyUser = 1).
Proof.
  split; [reflexivity |]. split; [reflexivity |]. split; [reflexivity |].
  intros H.
  destruct (H envNoGitReadOnly emptyWorld eq_refl) as [H1 _].
  discriminate H1.
Qed.

(* ================================================================== *)
(** ** Where errors are caught *)

Lemma setUser_returns (env : Env) (user : User) (global : bool) (w : World) :
  exists r, fst (setUser env user global w) = Returned r.
Proof.
  rewrite setUser_run.
  destruct (workspaceFolders env) as [[|p ps]|];
    try (eexists; reflexivity).
  destruct (exec env revParseCommand (Some p)), global; cbn zeta;
    try (eexists; reflexivity);
    match goal with
    | |- context [exec env (setCommand user ?g) (Some p)] =>
        destruct (exec env (setCommand user g) (Some p))
    end;
    try (eexists; reflexivity);
    destruct (find (sameUser user) (users w));
    try (eexists; reflexivity);
    destruct (updateResolves env (users w ++ [user]));
    eexists; reflexivity.
Qed.




(* ================================================================== *)
(** ** The store over sequences of operations *)

Lemma runOp_run (o : Op) (w : World) :
  runOp o w =
  match o with
  | Resolve env =>
      match getCurrentUser env w with
      | (Returned u, w') => (Returned (Some u), w')
      | (Thrown e, w') => (Thrown e, w')
      end
  | Apply env user global => setUser env user global w
  end.
Proof. destruct o; reflexivity. Qed.

(** One operation leaves the store as it is, or appends its subject, which
    was absent; and a returned identity is the subject and is stored. *)
Lemma runOp_store (o : Op) (w : World) :
  (users (snd (runOp o w)) = users w
   \/ (~ In (subject o) (users w)
       /\ users (snd (runOp o w)) = users w ++ [subject o]))
  /\ forall u, fst (runOp o w) = Returned (Some u) ->
               u = subject o /\ In u (users (snd (runOp o w))).
Proof.
  rewrite runOp_run. destruct o as [env | env user global]; cbn [subject].
  - rewrite getCurrentUser_run. cbn zeta.
    destruct (find (sameUser (probedUser env)) (users w)) as [v|] eqn:Ef.
    + cbn [fst snd users]. split; [now left |].
      intros u H. injection H as <-.
      split; [reflexivity | now apply find_sameUser_Some in Ef].
    + apply find_sameUser_None in Ef.
      destruct (updateResolves env (users w ++ [probedUser env]));
        cbn [fst snd users].
      * split; [right; now split |].
        intros u H. injection H as <-.
        split; [reflexivity | apply in_or_app; right; now left].
      * split; [now left | discriminate].
  - rewrite setUser_run.
    destruct (workspaceFolders env) as [[|p ps]|]; cbn [fst snd users];
      try (split; [now left | discriminate]).
    destruct (exec env revParseCommand (Some p)), global; cbn zeta;
      cbn [fst snd users];
      try (split; [now left | discriminate]);
      match goal with
      | |- context [exec env (setCommand user ?g) (Some p)] =>
          destruct (exec env (setCommand user g) (Some p))
      end;
      cbn [fst snd users];
      try (split; [now left | discriminate]);
      (destruct (find (sameUser user) (users w)) as [v|] eqn:Ef;
       [ apply find_sameUser_Some in Ef; cbn [fst snd users];
         split; [now left |];
         intros u H; injection H as <-; now split
       | apply find_sameUser_None in Ef;
         destruct (updateResolves env (users w ++ [user]));
         cbn [fst snd users];
         [ split; [right; now split |];
           intros u H; injection H as <-;
           split; [reflexivity | apply in_or_app; right; now left]
         | split; [now left | discriminate] ] ]).
Qed.

Lemma NoDup_appended (l : list User) (u : User) :
  NoDup l -> ~ In u l -> NoDup (l ++ [u]).
Proof.
  intros Hl Hu. induction Hl as [|v l Hv Hl IH]; simpl.
  - constructor; [intros [] | constructor].
  - constructor.
    + intros H. apply in_app_or in H. destruct H as [H | [H | []]].
      * contradiction.
      * subst. apply Hu. now left.
    + apply IH. intros H. apply Hu. now right.
Qed.

Lemma runOp_NoDup (o : Op) (w : World) :
  NoDup (users w) -> NoDup (users (snd (runOp o w))).
Proof.
  intros H. destruct (runOp_store o w) as [[E | [Habsent E]] _]; rewrite E.
  - exact H.
  - now apply NoDup_appended.
Qed.

Lemma runOp_keeps (o : Op) (w : World) (u : User) :
  In u (users w) -> In u (users (snd (runOp o w))).
Proof.
  intros H. destruct (runOp_store o w) as [[E | [_ E]] _]; rewrite E.
  - exact H.
  - apply in_or_app. now left.
Qed.

Lemma runOps_cons (o : Op) (ops : list Op) (w : World) :
  runOps (o :: ops) w =
  (fst (runOp o w) :: fst (runOps ops (snd (runOp o w))),
   snd (runOps ops (snd (runOp o w)))).
Proof.
  simpl. destruct (runOp o w) as [r w1]. cbn [fst snd].
  destruct (runOps ops w1). reflexivity.
Qed.

Lemma runOps_NoDup (ops : list Op) (w : World) :
  NoDup (users w) -> NoDup (users (snd (runOps ops w))).
Proof.
  revert w. induction ops as [|o ops IH]; intros w H.
  - exact H.
  - rewrite runOps_cons. cbn [snd]. apply IH. now apply runOp_NoDup.
Qed.

Lemma runOps_keeps (ops : list Op) (w : World) (u : User) :
  In u (users w) -> In u (users (snd (runOps ops w))).
Proof.
  revert w. induction ops as [|o ops IH]; intros w H.
  - exact H.
  - rewrite runOps_cons. cbn [snd]. apply IH. now apply runOp_keeps.
Qed.

Lemma runOps_returned_stored (ops : list Op) (w : World) (u : User) :
  In (Returned (Some u)) (fst (runOps ops w)) ->
  In u (users (snd (runOps ops w))).
Proof.
  revert w. induction ops as [|o ops IH]; intros w H.
  - destruct H.
  - rewrite runOps_cons in *. cbn [fst snd] in *.
    destruct H as [H | H].
    + apply runOps_keeps. now apply (runOp_store o w).
    + now apply IH.
Qed.

Lemma runOps_app (before after : list Op) (w : World) :
  runOps (before ++ after) w =
  (fst (runOps before w) ++ fst (runOps after (snd (runOps before w))),
   snd (runOps after (snd (runOps before w)))).
Proof.
  revert w. induction before as [|o before IH]; intros w.
  - cbn [app runOps fst snd]. now destruct (runOps after w).
  - cbn [app]. rewrite !runOps_cons, IH. reflexivity.
Qed.

(** The probe of [getCurrentUser] is the call of [currentIdentity] in the
    first workspace folder. *)
Lemma currentIdentity_probedUser (env : Env) (w : World) (u : User) :
  fst (currentIdentity env (probeCwd env) w) = Returned u ->
  probedUser env = u.
Proof.
  unfold probedUser. cbv [currentIdentity execRead bind ret throw emit].
  destruct (exec env readCommand (probeCwd env)); cbn [fst]; intros H;
    [discriminate H | now injection H].
Qed.

Lemma resolve_returns_probed (env : Env) (w : World) (u : User) :
  fst (currentIdentity env (probeCwd env) w) = Returned u ->
  In u (users w) \/ updateResolves env (users w ++ [u]) = true ->
  fst (runOp (Resolve env) w) = Returned (Some u).
Proof.
  intros Hprobe Hreg. apply currentIdentity_probedUser in Hprobe.
  rewrite runOp_run, getCurrentUser_run, Hprobe. cbn zeta.
  destruct (find (sameUser u) (users w)) eqn:Ef; [reflexivity |].
  apply find_sameUser_None in Ef.
  destruct Hreg as [Hin | ->]; [contradiction | reflexivity].
Qed.

Lemma apply_returns_written
    (env : Env) (user : User) (global : bool) (w : World)
    (repoPath : string) (rest : list string) (stdout : string) :
  workspaceFolders env = Some (repoPath :: rest) ->
  global = true \/ exec env revParseCommand (Some repoPath) <> ExecErr ->
  exec env (setCommand user global) (Some repoPath) = ExecOk stdout ->
  In user (users w) \/ updateResolves env (users w ++ [user]) = true ->
  fst (runOp (Apply env user global) w) = Returned (Some user).
Proof.
  intros Hws Hgate Hset Hreg. rewrite runOp_run, setUser_run, Hws.
  destruct (exec env revParseCommand (Some repoPath)) eqn:Er, global;
    cbn zeta; try rewrite Hset;
    try (destruct Hgate as [Hg | Hg];
         [discriminate Hg | exfalso; now apply Hg]);
    (destruct (find (sameUser user) (users w)) eqn:Ef; [reflexivity |]);
    apply find_sameUser_None in Ef;
    (destruct Hreg as [Hin | ->]; [contradiction | reflexivity]).
Qed.

(** A call that does not return its subject leaves the store as it was. *)
Lemma runOp_unreturned_keeps (o : Op) (w : World) :
  fst (runOp o w) <> Returned (Some (subject o)) ->
  users (snd (runOp o w)) = users w.
Proof.
  rewrite runOp_run. destruct o as [env | env user global]; cbn [subject].
  - rewrite getCurrentUser_run. cbn zeta.
    destruct (find (sameUser (probedUser env)) (users w)); [reflexivity |].
    destruct (updateResolves env (users w ++ [probedUser env]));
      cbn [fst snd users]; [intros H; now contradiction H | reflexivity].
  - rewrite setUser_run.
    destruct (workspaceFolders env) as [[|p ps]|]; try reflexivity.
    destruct (exec env revParseCommand (Some p)), global; cbn zeta;
      try reflexivity;
      match goal with
      | |- context [exec env (setCommand user ?g) (Some p)] =>
          destruct (exec env (setCommand user g) (Some p))
      end;
      try reflexivity;
      (destruct (find (sameUser user) (users w)); [reflexivity |]);
      destruct (updateResolves env (users w ++ [user]));
      cbn [fst snd users];
      try reflexivity; intros H; now contradiction H.
Qed.

(** C2, as the code has it.  Starting from a store without duplicates,
    after any sequence of [getCurrentUser] and [setUser] calls, in any
    environments, the store has no duplicates, and every identity that one
    of the calls returned occurs in it exactly once.  An identity that the
    probe of a resolution reported, and an identity that the write command
    of an application wrote, occurs exactly once provided it was stored
    already or the settings update that registers it resolves.  A call
    that does not return its identity (the registering update rejected,
    or an earlier step failed) leaves the store as it was. *)
Theorem store_stays_duplicate_free (ops : list Op) (w : World) :
  NoDup (users w) ->
  NoDup (users (snd (runOps ops w)))
  /\ (forall u, In (Returned (Some u)) (fst (runOps ops w)) ->
                count_occ User_eq_dec (users (snd (runOps ops w))) u = 1)
  /\ (forall before env after u,
        ops = before ++ Resolve env :: after ->
        fst (currentIdentity env (probeCwd env) (snd (runOps before w)))
        = Returned u ->
        In u (users (snd (runOps before w)))
        \/ updateResolves env (users (snd (runOps before w)) ++ [u]) = true ->
        count_occ User_eq_dec (users (snd (runOps ops w))) u = 1)
  /\ (forall before env user global after repoPath rest stdout,
        ops = before ++ Apply env user global :: after ->
        workspaceFolders env = Some (repoPath :: rest) ->
        global = true \/ exec env revParseCommand (Some repoPath) <> ExecErr ->
        exec env (setCommand user global) (Some repoPath) = ExecOk stdout ->
        In user (users (snd (runOps before w)))
        \/ updateResolves env (users (snd (runOps before w)) ++ [user])
           = true ->
        count_occ User_eq_dec (users (snd (runOps ops w))) user = 1)
  /\ (forall before o after,
        ops = before ++ o :: after ->
        fst (runOp o (snd (runOps before w))) <> Returned (Some (subject o)) ->
        users (snd (runOp o (snd (runOps before w))))
        = users (snd (runOps before w))).
Proof.
  intros H. pose proof (runOps_NoDup ops w H) as Hfinal.
  assert (Hreturned :
    forall u, In (Returned (Some u)) (fst (runOps ops w)) ->
              count_occ User_eq_dec (users (snd (runOps ops w))) u = 1).
  { intros u Hu. apply runOps_returned_stored in Hu.
    apply (count_occ_In User_eq_dec) in Hu.
    pose proof (proj1 (NoDup_count_occ User_eq_dec _) Hfinal u). lia. }
  assert (Hat :
    forall before o after u,
      ops = before ++ o :: after ->
      fst (runOp o (snd (runOps before w))) = Returned (Some u) ->
      In (Returned (Some u)) (fst (runOps ops w))).
  { intros before o after u -> Hr.
    rewrite runOps_app, runOps_cons. cbn [fst].
    apply in_or_app. right. left. exact Hr. }
  split; [exact Hfinal |]. split; [exact Hreturned |].
  split; [| split].
  - intros before env after u Hops Hprobe Hreg.
    apply Hreturned, (Hat before (Resolve env) after u Hops).
    now apply resolve_returns_probed.
  - intros before env user global after repoPath rest stdout
      Hops Hws Hgate Hset Hreg.
    apply Hreturned, (Hat before (Apply env user global) after user Hops).
    now apply (apply_returns_written env user global _ repoPath rest stdout).
  - intros before o after _. apply runOp_unreturned_keeps.
Qed.

(** C2 at a concrete run: git reports Alice as the configured user, the
    store is empty and the settings cannot be written.  The probe succeeds
    with Alice, yet after the resolution she is not stored. *)
Lemma probed_identity_left_unstored :
  NoDup (users emptyWorld)
  /\ fst (currentIdentity envAliceReadOnly (probeCwd envAliceReadOnly)
            emptyWorld) = Returned alice
  /\ users (snd (runOps [Resolve envAliceReadOnly] emptyWorld)) = []
  /\ count_occ User_eq_dec
       (users (snd (runOps [Resolve envAliceReadOnly] emptyWorld))) alice = 0
  /\ ~ (forall ops w,
          NoDup (users w) ->
          forall before env after u,
            ops = before ++ Resolve env :: after ->
            fst (currentIdentity env (probeCwd env) (snd (runOps before w)))
            = Returned u ->
            count_occ User_eq_dec (users (snd (runOps ops w))) u = 1).
Proof.
  split; [constructor |]. split; [reflexivity |].
  split; [reflexivity |]. split; [reflexivity |].
  intros H.
  specialize (H [Resolve envAliceReadOnly] emptyWorld (NoDup_nil User)
                [] envAliceReadOnly [] alice eq_refl eq_refl).
  discriminate H.
Qed.

Lemma runOp_present (o : Op) (w : World) :
  In (subject o) (users w) -> users (snd (runOp o w)) = users w.
Proof.
  intros H. destruct (runOp_store o w) as [[E | [Habsent _]] _].
  - exact E.
  - contradiction.
Qed.

(** What an operation does to the store depends on the store only, not
    on the log. *)
Lemma runOp_users_ext (o : Op) (w w' : World) :
  users w = users w' ->
  users (snd (runOp o w)) = users (snd (runOp o w')).
Proof.
  intros H. rewrite !runOp_run. destruct o as [env | env user global].
  - rewrite !getCurrentUser_run. cbn zeta. rewrite <- H.
    destruct (find (sameUser (probedUser env)) (users w));
      [reflexivity |].
    destruct (updateResolves env (users w ++ [probedUser env]));
      cbn [snd users]; congruence.
  - rewrite !setUser_run. rewrite <- H.
    destruct (workspaceFolders env) as [[|p ps]|];
      cbn [snd users]; try congruence.
    destruct (exec env revParseCommand (Some p)), global; cbn zeta;
      cbn [snd users]; try congruence;
      match goal with
      | |- context [exec env (setCommand user ?g) (Some p)] =>
          destruct (exec env (setCommand user g) (Some p))
      end;
      cbn [snd users]; try congruence;
      destruct (find (sameUser user) (users w));
      cbn [snd users]; try congruence;
      destruct (updateResolves env (users w ++ [user]));
      cbn [snd users]; congruence.
Qed.

(** C3. When a first call has returned an identity, a second call about
    the same identity, by either function and in any environment, leaves
    the store as the first call left it, in contents and in length.  A
    call about an identity that is already stored leaves the store as it
    was.  And repeating a call in the same environment leaves the store as
    the first of the two left it, whatever the outcome of the first. *)
Theorem register_twice_same_store (o1 o2 : Op) (w : World) :
  (fst (runOp o1 w) = Returned (Some (subject o2)) ->
   users (snd (runOp o2 (snd (runOp o1 w)))) = users (snd (runOp o1 w))
   /\ length (users (snd (runOp o2 (snd (runOp o1 w)))))
      = length (users (snd (runOp o1 w))))
  /\ (In (subject o2) (users w) ->
      users (snd (runOp o2 w)) = users w
      /\ length (users (snd (runOp o2 w))) = length (users w))
  /\ users (snd (runOp o2 (snd (runOp o2 w)))) = users (snd (runOp o2 w))
  /\ length (users (snd (runOp o2 (snd (runOp o2 w)))))
     = length (users (snd (runOp o2 w))).
Proof.
  split; [| split].
  - intros H. apply (runOp_store o1 w) in H. destruct H as [_ H].
    apply runOp_present in H. rewrite H. now split.
  - intros H. apply runOp_present in H. rewrite H. now split.
  - assert (E : users (snd (runOp o2 (snd (runOp o2 w))))
                = users (snd (runOp o2 w))).
    { destruct (runOp_store o2 w) as [[E | [_ E]] _].
      - rewrite (runOp_users_ext o2 _ w E). reflexivity.
      - apply runOp_present. rewrite E. apply in_or_app. right. now left. }
    rewrite E. now split.
Qed.

(* ================================================================== *)
(** ** The theorems at concrete runs *)

Lemma NoDup_singleton (u : User) : NoDup [u].
Proof. constructor; [intros [] | constructor]. Defined.

(** A configured name with an empty [user.email]: git prints the name and
    an empty line, [trim] leaves one line, and the email is [undefined]. *)
Example currentIdentity_empty_email :
  let env := mkEnv (Some ["/repo"]) (onlyRead (line "Alice" ++ line "")%string)
                   (fun _ => true) in
  fst (currentIdentity env (Some "/repo") emptyWorld)
  = Returned (mkUser (str "Alice") undefined).
Proof. reflexivity. Qed.

(** Scenario 1: an empty store and a probe that reports Alice. *)
Example resolve_alice_into_empty_store :
  let env := mkEnv (Some ["/repo"])
                   (onlyRead (line "Alice" ++ line "alice@x.com")%string)
                   (fun _ => true) in
  fst (getCurrentUser env emptyWorld) = Returned alice
  /\ users (snd (getCurrentUser env emptyWorld)) = [alice].
Proof. split; reflexivity. Qed.

Lemma setUser_local_outside_repository_witness :
  workspaceFolders envOutsideRepo = Some ["/home"]
  /\ exec envOutsideRepo revParseCommand (Some "/home") = ExecErr
  /\ setUser envOutsideRepo carol false (mkWorld [alice] []) =
       (Returned None,
        mkWorld [alice]
          [EExec revParseCommand (Some "/home");
           EShowErrorMessage notInitializedMessage]).
Proof.
  split; [reflexivity | split; [reflexivity |]].
  exact (proj1 (setUser_local_outside_repository
                  envOutsideRepo carol (mkWorld [alice] []) "/home" []
                  eq_refl eq_refl)).
Defined.

Lemma setUser_no_workspace_witness :
  workspaceFolders envNoWorkspace = None
  /\ setUser envNoWorkspace bob true (mkWorld [alice] []) =
       (Returned None,
        mkWorld [alice] [EShowErrorMessage noWorkspaceMessage]).
Proof.
  split; [reflexivity |].
  exact (proj1 (setUser_no_workspace
                  envNoWorkspace bob true (mkWorld [alice] [])
                  (or_introl eq_refl))).
Defined.

Lemma setUser_write_failure_keeps_store_witness :
  workspaceFolders envNoGit = Some ["/repo"]
  /\ exec envNoGit (setCommand bob true) (Some "/repo") = ExecErr
  /\ fst (setUser envNoGit bob true (mkWorld [alice] [])) = Returned None
  /\ users (snd (setUser envNoGit bob true (mkWorld [alice] []))) = [alice].
Proof.
  split; [reflexivity | split; [reflexivity |]].
  pose proof (setUser_write_failure_keeps_store
                envNoGit bob true (mkWorld [alice] []) "/repo" []
                eq_refl eq_refl) as H.
  exact (conj (proj1 H) (proj1 (proj2 H))).
Defined.

Lemma setUser_global_outside_repository_witness :
  workspaceFolders envOutsideRepo = Some ["/home"]
  /\ exec envOutsideRepo revParseCommand (Some "/home") = ExecErr
  /\ ~ In bob [alice]
  /\ exec envOutsideRepo (setCommand bob true) (Some "/home") = ExecOk ""
  /\ fst (setUser envOutsideRepo bob true (mkWorld [alice] []))
     = Returned (Some bob)
  /\ users (snd (setUser envOutsideRepo bob true (mkWorld [alice] [])))
     = [alice; bob].
Proof.
  assert (Habsent : ~ In bob [alice]).
  { intros [H | []]. discriminate H. }
  split; [reflexivity | split; [reflexivity |]].
  split; [exact Habsent | split; [reflexivity |]].
  pose proof (setUser_global_outside_repository
                envOutsideRepo bob (mkWorld [alice] []) "/home" [] ""
                eq_refl eq_refl Habsent eq_refl eq_refl) as H.
  exact (conj (proj1 H) (proj1 (proj2 H))).
Defined.

Lemma getCurrentUser_read_failure_witness :
  exec envNoGit readCommand (probeCwd envNoGit) = ExecErr
  /\ fst (getCurrentUser envNoGit (mkWorld [alice] [])) = Returned emptyUser
  /\ users (snd (getCurrentUser envNoGit (mkWorld [alice] [])))
     = [alice; emptyUser].
Proof.
  split; [reflexivity |].
  assert (Habsent : ~ In emptyUser [alice]).
  { intros [H | []]. discriminate H. }
  pose proof (proj1 (proj2 (proj2
                (getCurrentUser_read_failure
                   envNoGit (mkWorld [alice] []) eq_refl)))
                Habsent eq_refl) as H.
  exact (conj (proj1 H) (proj1 (proj2 H))).
Defined.

Lemma store_stays_duplicate_free_witness :
  NoDup [alice]
  /\ users (snd (runOps sampleOps (mkWorld [alice] [])))
     = [alice; bob; emptyUser]
  /\ NoDup (users (snd (runOps sampleOps (mkWorld [alice] []))))
  /\ count_occ User_eq_dec
       (users (snd (runOps sampleOps (mkWorld [alice] [])))) bob = 1
  /\ count_occ User_eq_dec
       (users (snd (runOps sampleOps (mkWorld [alice] [])))) alice = 1.
Proof.
  split; [apply NoDup_singleton | split; [reflexivity |]].
  pose proof (store_stays_duplicate_free
                sampleOps (mkWorld [alice] []) (NoDup_singleton alice))
    as H.
  split; [exact (proj1 H) |]. split.
  - apply (proj1 (proj2 H)). left. reflexivity.
  - exact (proj1 (proj2 (proj2 H))
             [Apply envOutsideRepo bob true;
              Apply envOutsideRepo carol false;
              Apply envOutsideRepo bob true;
              Resolve envNoGit]
             envAliceReadOnly [] alice eq_refl eq_refl
             (or_introl (or_introl eq_refl))).
Defined.

Lemma register_twice_same_store_witness :
  fst (runOp (Apply envOutsideRepo bob true) (mkWorld [alice] []))
  = Returned (Some bob)
  /\ users (snd (runOp (Apply envOutsideRepo bob true) (mkWorld [alice] [])))
     = [alice; bob]
  /\ users (snd (runOp (Apply envOutsideRepo bob true)
                   (snd (runOp (Apply envOutsideRepo bob true)
                           (mkWorld [alice] [])))))
     = [alice; bob].
Proof.
  split; [reflexivity | split; [reflexivity |]].
  exact (proj1 (proj1 (register_twice_same_store
                         (Apply envOutsideRepo bob true)
                         (Apply envOutsideRepo bob true)
                         (mkWorld [alice] []))
                  eq_refl)).
Defined.

(* ================================================================== *)
(** ** Parsing the output of the read command *)

Lemma append_assoc (a b c : string) :
  (a ++ (b ++ c))%string = ((a ++ b) ++ c)%string.
Proof. induction a as [|x r IH]; simpl; [reflexivity | now rewrite IH]. Qed.

Lemma rev_string_acc (s acc : string) :
  rev_string s acc = (rev_string s "" ++ acc)%string.
Proof.
  revert acc. induction s as [|c r IH]; intros acc; simpl.
  - reflexivity.
  - rewrite (IH (String c acc)), (IH (String c "")).
    rewrite <- append_assoc. reflexivity.
Qed.

Lemma append_empty_r (s : string) : (s ++ "")%string = s.
Proof. induction s as [|c r IH]; simpl; [reflexivity | now rewrite IH]. Qed.

Lemma rev_string_append (a b : string) :
  rev_string (a ++ b) "" = (rev_string b "" ++ rev_string a "")%string.
Proof.
  induction a as [|c r IH]; simpl.
  - now rewrite append_empty_r.
  - rewrite (rev_string_acc (r ++ b) (String c "")), IH,
      (rev_string_acc r (String c "")).
    now rewrite append_assoc.
Qed.

Lemma rev_string_involutive (s : string) :
  rev_string (rev_string s "") "" = s.
Proof.
  induction s as [|c r IH]; simpl.
  - reflexivity.
  - rewrite (rev_string_acc r (String c "")), rev_string_append, IH.
    reflexivity.
Qed.

Lemma LF_isWhiteSpace : isWhiteSpace LF = true.
Proof. reflexivity. Qed.

Lemma split_lines_plain (s : string) :
  noLineFeed s = true -> split_lines s = [s].
Proof.
  induction s as [|c r IH]; simpl; [reflexivity |].
  intros H. apply andb_true_iff in H. destruct H as [Hc Hr].
  apply negb_true_iff in Hc. rewrite Hc, (IH Hr). reflexivity.
Qed.

Lemma split_lines_first (a b : string) :
  noLineFeed a = true ->
  split_lines (a ++ String LF b) = a :: split_lines b.
Proof.
  induction a as [|c r IH]; simpl.
  - intros _. reflexivity.
  - intros H. apply andb_true_iff in H. destruct H as [Hc Hr].
    apply negb_true_iff in Hc. rewrite Hc, (IH Hr). reflexivity.
Qed.

Lemma line_append (a b : string) :
  (line a ++ b)%string = (a ++ String LF b)%string.
Proof. unfold line. now rewrite <- append_assoc. Qed.

Lemma hasPlain_append (a b : string) :
  hasPlain (a ++ b) = hasPlain a || hasPlain b.
Proof.
  induction a as [|c r IH]; simpl; [reflexivity |].
  now rewrite IH, orb_assoc.
Qed.

Lemma noLineFeed_append (a b : string) :
  noLineFeed (a ++ b) = noLineFeed a && noLineFeed b.
Proof.
  induction a as [|c r IH]; simpl; [reflexivity |].
  now rewrite IH, andb_assoc.
Qed.

Lemma rev_string_cons (c : ascii) (r : string) :
  rev_string (String c r) "" = (rev_string r "" ++ String c "")%string.
Proof. cbn [rev_string]. apply rev_string_acc. Qed.

Lemma hasPlain_rev (s : string) : hasPlain (rev_string s "") = hasPlain s.
Proof.
  induction s as [|c r IH]; [reflexivity |].
  rewrite rev_string_cons, hasPlain_append, IH. simpl.
  rewrite orb_false_r. apply orb_comm.
Qed.

Lemma noLineFeed_rev (s : string) :
  noLineFeed (rev_string s "") = noLineFeed s.
Proof.
  induction s as [|c r IH]; [reflexivity |].
  rewrite rev_string_cons, noLineFeed_append, IH. simpl.
  rewrite andb_true_r. apply andb_comm.
Qed.

(** White space is stripped from the front up to the first other
    character; what follows is kept. *)
Lemma trimStart_append (x y : string) :
  hasPlain x = true -> trimStart (x ++ y) = (trimStart x ++ y)%string.
Proof.
  induction x as [|c r IH]; simpl; [discriminate |].
  destruct (isWhiteSpace c); simpl; [exact IH | reflexivity].
Qed.

Lemma trimEnd_append (a b : string) :
  hasPlain b = true -> trimEnd (a ++ b) = (a ++ trimEnd b)%string.
Proof.
  intros H. unfold trimEnd. rewrite rev_string_append.
  rewrite trimStart_append by now rewrite hasPlain_rev.
  now rewrite rev_string_append, rev_string_involutive.
Qed.

Lemma trimEnd_final_line_feed (s : string) : trimEnd (line s) = trimEnd s.
Proof.
  unfold trimEnd, line. rewrite rev_string_append.
  change (rev_string (String LF "") "") with (String LF "").
  change (String LF "" ++ rev_string s "")%string
    with (String LF (rev_string s "")).
  cbn [trimStart]. now rewrite LF_isWhiteSpace.
Qed.

Lemma noLineFeed_trimStart (s : string) :
  noLineFeed s = true -> noLineFeed (trimStart s) = true.
Proof.
  induction s as [|c r IH]; simpl; [trivial |].
  intros H. destruct (isWhiteSpace c); [| exact H].
  apply andb_true_iff in H. now apply IH.
Qed.

Lemma noLineFeed_trimEnd (s : string) :
  noLineFeed s = true -> noLineFeed (trimEnd s) = true.
Proof.
  intros H. unfold trimEnd. rewrite noLineFeed_rev.
  apply noLineFeed_trimStart. now rewrite noLineFeed_rev.
Qed.

(** X1. Strings are over code units below 256.  When the read command
    prints a name line and an email line, each holding at least one
    character that is not white space, the probe returns the name line
    without its leading white space and the email line without its
    trailing white space; the rest of both lines is kept as printed. *)
Theorem currentIdentity_reads_two_lines
    (env : Env) (cwd : option string) (w : World) (n e : string) :
  exec env readCommand cwd = ExecOk (line n ++ line e)%string ->
  noLineFeed n = true -> hasPlain n = true ->
  noLineFeed e = true -> hasPlain e = true ->
  fst (currentIdentity env cwd w)
  = Returned (mkUser (str (trimStart n)) (str (trimEnd e))).
Proof.
  intros Hexec Hn Hpn He Hpe.
  cbv [currentIdentity execRead bind ret throw emit].
  rewrite Hexec. cbn [fst].
  assert (Htrim : trim (line n ++ line e)
                  = (trimStart n ++ String LF (trimEnd e))%string).
  { unfold trim. rewrite line_append, (trimStart_append n _ Hpn).
    change (String LF (line e)) with (String LF "" ++ line e)%string.
    rewrite append_assoc, trimEnd_append.
    - rewrite trimEnd_final_line_feed, <- append_assoc. reflexivity.
    - unfold line. rewrite hasPlain_append, Hpe. reflexivity. }
  rewrite Htrim.
  rewrite (split_lines_first _ _ (noLineFeed_trimStart n Hn)).
  rewrite (split_lines_plain _ (noLineFeed_trimEnd e He)).
  reflexivity.
Qed.

Lemma split_lines_noLineFeed (s : string) :
  Forall (fun piece => noLineFeed piece = true) (split_lines s).
Proof.
  induction s as [|c r IH]; simpl.
  - constructor; [reflexivity | constructor].
  - destruct (Ascii.eqb c LF) eqn:Ec.
    + constructor; [reflexivity | exact IH].
    + destruct (split_lines r) as [|piece pieces].
      * constructor; [simpl; now rewrite Ec | constructor].
      * inversion IH as [|? ? Hpiece Hpieces]; subst.
        constructor; [simpl; now rewrite Ec, Hpiece | exact Hpieces].
Qed.

Lemma trimStart_shape (s : string) :
  trimStart s = EmptyString \/ startsPlain (trimStart s) = true.
Proof.
  induction s as [|c r IH]; simpl.
  - now left.
  - destruct (isWhiteSpace c) eqn:Ec; [exact IH |].
    right. simpl. now rewrite Ec.
Qed.

Lemma trimStart_keeps_last (x : string) (c : ascii) :
  isWhiteSpace c = false ->
  exists y, trimStart (x ++ String c "") = (y ++ String c "")%string.
Proof.
  intros Hc. induction x as [|d r IH]; simpl.
  - rewrite Hc. now exists EmptyString.
  - destruct (isWhiteSpace d).
    + exact IH.
    + now exists (String d r).
Qed.

Lemma trimEnd_keeps_start (s : string) :
  startsPlain s = true -> startsPlain (trimEnd s) = true.
Proof.
  destruct s as [|c r]; simpl; [discriminate |].
  intros H. apply negb_true_iff in H.
  unfold trimEnd. cbn [rev_string].
  rewrite (rev_string_acc r (String c "")).
  destruct (trimStart_keeps_last (rev_string r "") c H) as [y ->].
  rewrite rev_string_append. simpl. now rewrite H.
Qed.

Lemma trim_shape (s : string) :
  trim s = EmptyString \/ startsPlain (trim s) = true.
Proof.
  unfold trim. destruct (trimStart_shape s) as [-> | H].
  - now left.
  - right. now apply trimEnd_keeps_start.
Qed.

Lemma split_lines_head_shape (t : string) :
  t = EmptyString \/ startsPlain t = true ->
  exists first others,
    split_lines t = first :: others
    /\ (first = EmptyString \/ startsPlain first = true).
Proof.
  intros [-> | H].
  - exists EmptyString, []. split; [reflexivity | now left].
  - destruct t as [|c r]; [discriminate |]. simpl in H |- *.
    assert (Hc : Ascii.eqb c LF = false).
    { destruct (Ascii.eqb_spec c LF) as [-> | _]; [discriminate H | easy]. }
    rewrite Hc. destruct (split_lines r) as [|piece pieces].
    + exists (String c ""), []. split; [reflexivity | now right].
    + exists (String c piece), pieces. split; [reflexivity | now right].
Qed.

(** The fields that the parsing of any output yields. *)
Lemma parsed_fields (stdout : string) :
  let parts := split_lines (trim stdout) in
  (exists n, index parts 0 = str n /\ noLineFeed n = true
             /\ (n = EmptyString \/ startsPlain n = true))
  /\ (index parts 1 = undefined
      \/ exists e, index parts 1 = str e /\ noLineFeed e = true).
Proof.
  cbn zeta. pose proof (split_lines_noLineFeed (trim stdout)) as Hall.
  destruct (split_lines_head_shape (trim stdout) (trim_shape stdout))
    as (first & others & E & Hfirst).
  rewrite E in *. inversion Hall as [|? ? H1 Hothers]; subst.
  split.
  - exists first. now repeat split.
  - unfold index. simpl. destruct others as [|second others']; simpl.
    + now left.
    + right. exists second. split; [reflexivity |].
      now inversion Hothers.
Qed.

(** X2. Whatever git prints, a user that [getCurrentUser] returns has a
    name that is a string (never [undefined]) without line feed and without
    leading white space, and an email that is [undefined] or a string
    without line feed. *)
Theorem getCurrentUser_fields (env : Env) (w : World) (u : User) :
  fst (getCurrentUser env w) = Returned u ->
  (exists n, name u = str n /\ noLineFeed n = true
             /\ (n = EmptyString \/ startsPlain n = true))
  /\ (email u = undefined
      \/ exists e, email u = str e /\ noLineFeed e = true).
Proof.
  rewrite getCurrentUser_run. cbn zeta. intros H.
  assert (Hu : u = probedUser env).
  { destruct (find (sameUser (probedUser env)) (users w)).
    - now injection H.
    - destruct (updateResolves env (users w ++ [probedUser env]));
        [now injection H | discriminate H]. }
  subst u. unfold probedUser.
  destruct (exec env readCommand (probeCwd env)) as [|stdout].
  - split.
    + exists EmptyString. repeat split. now left.
    + right. exists EmptyString. now split.
  - exact (parsed_fields stdout).
Qed.

(** X3. Strings are over code units below 256.  Lines after the second
    are ignored: when the name line holds a character that is not white
    space and the output goes on after the email line with text that holds
    one too, the probe returns the name line without its leading white
    space and the whole second line as the email. *)
Theorem currentIdentity_ignores_later_lines
    (env : Env) (cwd : option string) (w : World) (n e more : string) :
  exec env readCommand cwd = ExecOk (line n ++ line e ++ more)%string ->
  noLineFeed n = true -> hasPlain n = true ->
  noLineFeed e = true -> hasPlain more = true ->
  fst (currentIdentity env cwd w)
  = Returned (mkUser (str (trimStart n)) (str e)).
Proof.
  intros Hexec Hn Hpn He Hmore.
  cbv [currentIdentity execRead bind ret throw emit].
  rewrite Hexec. cbn [fst].
  assert (Htrim : trim (line n ++ line e ++ more)
                  = (trimStart n
                     ++ String LF (e ++ String LF (trimEnd more)))%string).
  { unfold trim. rewrite line_append, (trimStart_append n _ Hpn).
    rewrite (line_append e more).
    change (String LF (e ++ String LF more))
      with (String LF "" ++ (e ++ (String LF "" ++ more)))%string.
    rewrite !append_assoc, (trimEnd_append _ more Hmore).
    rewrite <- !append_assoc. reflexivity. }
  rewrite Htrim.
  rewrite (split_lines_first _ _ (noLineFeed_trimStart n Hn)).
  rewrite (split_lines_first e _ He).
  reflexivity.
Qed.

(* ================================================================== *)
(** ** What the two functions run and show *)

Lemma filter_isExec_probeEvents (env : Env) :
  filter isExec (probeEvents env) = [EExec readCommand (probeCwd env)].
Proof.
  unfold probeEvents.
  destruct (workspaceFolders env) as [[|folder rest]|];
    destruct (exec env readCommand (probeCwd env)); reflexivity.
Qed.

Lemma getCurrentUser_trace (env : Env) (w : World) :
  trace (snd (getCurrentUser env w)) =
  trace w ++ probeEvents env
    ++ match find (sameUser (probedUser env)) (users w) with
       | Some _ => []
       | None => [EUpdate (users w ++ [probedUser env])]
       end.
Proof.
  rewrite getCurrentUser_run. cbn zeta.
  destruct (find (sameUser (probedUser env)) (users w)).
  - cbn [snd trace]. now rewrite app_nil_r.
  - destruct (updateResolves env (users w ++ [probedUser env]));
      cbn [snd trace]; now rewrite <- app_assoc.
Qed.

(** X4. [getCurrentUser] runs exactly one command, the read command, in the
    first workspace folder; it never runs the write command or the
    repository query.  It shows its error notice exactly when the read
    command fails. *)
Theorem getCurrentUser_runs_only_read (env : Env) (w : World) :
  exists added,
    trace (snd (getCurrentUser env w)) = trace w ++ added
    /\ filter isExec added = [EExec readCommand (probeCwd env)]
    /\ (In (EShowErrorMessage "Error getting current user") added <->
        exec env readCommand (probeCwd env) = ExecErr)
    /\ forall m, In (EShowErrorMessage m) added ->
                 m = "Error getting current user".
Proof.
  eexists. split; [apply getCurrentUser_trace |].
  split.
  - rewrite filter_app, filter_isExec_probeEvents.
    destruct (find (sameUser (probedUser env)) (users w)); reflexivity.
  - assert (Hupd : forall m,
              ~ In (EShowErrorMessage m)
                  match find (sameUser (probedUser env)) (users w) with
                  | Some _ => []
                  | None => [EUpdate (users w ++ [probedUser env])]
                  end).
    { intros m. destruct (find (sameUser (probedUser env)) (users w));
        [intros [] | intros [H | []]; discriminate H]. }
    split.
    + split.
      * intros H. apply in_app_or in H. destruct H as [H | H];
          [| now apply Hupd in H].
        unfold probeEvents in H.
        destruct (exec env readCommand (probeCwd env)); [reflexivity |].
        exfalso.
        destruct (workspaceFolders env) as [[|folder rest]|];
          cbn in H; intuition discriminate.
      * intros H. apply in_or_app. left. unfold probeEvents. rewrite H.
        apply in_or_app. right. right. now left.
    + intros m H. apply in_app_or in H. destruct H as [H | H];
        [| now apply Hupd in H].
      unfold probeEvents in H.
      destruct (workspaceFolders env) as [[|folder rest]|];
        destruct (exec env readCommand (probeCwd env));
        cbn in H;
        repeat (destruct H as [H | H];
                [try discriminate H; now injection H |]);
        destruct H.
Qed.

(** X5. Without a workspace folder [getCurrentUser] does not give up: it
    shows a warning, runs the read command without a working directory,
    and ends as with a folder: it returns the probed user, or rejects when
    the registration cannot be written. *)
Theorem getCurrentUser_without_workspace (env : Env) (w : World) :
  workspaceFolders env = None \/ workspaceFolders env = Some [] ->
  (exists later,
     trace (snd (getCurrentUser env w)) =
     trace w
     ++ EShowWarningMessage
          "No workspace folder found, trying to get global user"
        :: EExec readCommand None :: later)
  /\ (fst (getCurrentUser env w) = Returned (probedUser env)
      \/ (fst (getCurrentUser env w) = Thrown UpdateError
          /\ updateResolves env (users w ++ [probedUser env]) = false)).
Proof.
  intros Hws. split.
  - rewrite getCurrentUser_trace. unfold probeEvents, probeCwd.
    destruct Hws as [-> | ->]; cbn [app orUndefined String.eqb];
      eexists; reflexivity.
  - rewrite getCurrentUser_run. cbn zeta.
    destruct (find (sameUser (probedUser env)) (users w)); [now left |].
    destruct (updateResolves env (users w ++ [probedUser env]));
      [now left | right; now split].
Qed.

(** X6. Only the first workspace folder counts: with other folders after
    it, both functions do exactly the same. *)
Theorem only_first_workspace_folder
    (env : Env) (others : list string) (w : World) :
  getCurrentUser (withOtherFolders others env) w = getCurrentUser env w
  /\ forall user global,
       setUser (withOtherFolders others env) user global w
       = setUser env user global w.
Proof.
  split.
  - rewrite !getCurrentUser_run.
    unfold probedUser, probeEvents, probeCwd, withOtherFolders.
    cbn [workspaceFolders exec updateResolves].
    destruct (workspaceFolders env) as [[|folder rest]|]; reflexivity.
  - intros user global. rewrite !setUser_run. unfold withOtherFolders.
    cbn [workspaceFolders exec updateResolves].
    destruct (workspaceFolders env) as [[|folder rest]|]; reflexivity.
Qed.

Lemma setCommand_eqb_revParse (user : User) (global : bool) :
  String.eqb (setCommand user global) revParseCommand = false.
Proof. apply String.eqb_neq. apply setCommand_not_revParse. Qed.

(** X7. For the global scope the answer to the repository query does not
    count: whatever it is, [setUser user true] ends the same way, with the
    same store and the same log. *)
Theorem setUser_global_ignores_repository
    (env : Env) (r : ExecResult) (user : User) (w : World) :
  setUser (withRevParse r env) user true w = setUser env user true w.
Proof.
  rewrite !setUser_run. unfold withRevParse.
  cbn [workspaceFolders exec updateResolves].
  rewrite setCommand_eqb_revParse, String.eqb_refl.
  destruct (workspaceFolders env) as [[|p ps]|]; try reflexivity.
  destruct r, (exec env revParseCommand (Some p)); reflexivity.
Qed.

Ltac split_setUser env user p w :=
  destruct (exec env revParseCommand (Some p)) eqn:Erepo;
  try match goal with
      | |- context [match ?g with true => _ | false => _ end] =>
          is_var g; destruct g
      | H : context [match ?g with true => _ | false => _ end] |- _ =>
          is_var g; destruct g
      end;
  cbn zeta in *;
  try match goal with
      | |- context [exec env (setCommand user ?g) (Some p)] =>
          destruct (exec env (setCommand user g) (Some p)) eqn:Eset
      | H : context [exec env (setCommand user ?g) (Some p)] |- _ =>
          destruct (exec env (setCommand user g) (Some p)) eqn:Eset
      end;
  try (destruct (find (sameUser user) (users w)) eqn:Efind);
  try (destruct (updateResolves env (users w ++ [user])) eqn:Eupd);
  cbn [fst snd users trace] in *.

Ltac not_among H :=
  exfalso; cbn [In app] in H;
  repeat (destruct H as [H | H]; [discriminate H |]);
  exact H.

(** X8. [setUser] writes the settings only after the write command has
    exited with status 0 (and, for the local scope, inside a repository),
    only for a user that is not stored, and what it writes is the stored
    list followed by that user: no stored user is dropped or moved. *)
Theorem setUser_updates_only_after_write
    (env : Env) (user : User) (global : bool) (w : World) (l : list User) :
  In (EUpdate l) (trace (snd (setUser env user global w))) ->
  In (EUpdate l) (trace w)
  \/ (l = users w ++ [user]
      /\ ~ In user (users w)
      /\ exists repoPath rest stdout,
           workspaceFolders env = Some (repoPath :: rest)
           /\ exec env (setCommand user global) (Some repoPath)
              = ExecOk stdout
           /\ (global = true
               \/ exec env revParseCommand (Some repoPath) <> ExecErr)).
Proof.
  rewrite setUser_run. intros H.
  destruct (workspaceFolders env) as [[|p ps]|] eqn:Ews;
    cbn [snd trace] in H;
    try (apply in_app_or in H; destruct H as [H | H];
         [now left | not_among H]).
  split_setUser env user p w;
    rewrite <- ?app_assoc in H;
    apply in_app_or in H; (destruct H as [H | H]; [now left |]);
    try (not_among H);
    right; cbn [In app] in H;
    repeat (destruct H as [H | H]; [try discriminate H |]);
    try (now destruct H);
    injection H as <-;
    (split; [reflexivity |]);
    (split; [now apply find_sameUser_None |]);
    exists p, ps; eexists;
    (split; [reflexivity |]);
    (split; [eassumption |]);
    first [now left | right; rewrite Erepo; discriminate].
Qed.

(** X9. [setUser] shows exactly one error notice when it returns
    [undefined], whatever made it fail, and none when it returns the
    user; it never shows a warning or sets the status bar. *)
Theorem setUser_one_notice_per_failure
    (env : Env) (user : User) (global : bool) (w : World) :
  exists added,
    trace (snd (setUser env user global w)) = trace w ++ added
    /\ length (filter isErrorNotice added)
       = match fst (setUser env user global w) with
         | Returned (Some _) => 0
         | _ => 1
         end
    /\ forall e, In e added ->
         match e with
         | EShowWarningMessage _ | EStatusBarText _ | EExecuteCommand _ =>
             False
         | _ => True
         end.
Proof.
  rewrite setUser_run.
  destruct (workspaceFolders env) as [[|p ps]|] eqn:Ews;
    cbn [fst snd trace];
    try (eexists; split; [reflexivity |]; split; [reflexivity |];
         intros e [<- | []]; exact I).
  split_setUser env user p w;
    rewrite <- ?app_assoc; cbn [app];
    (eexists; split; [reflexivity |]; split; [reflexivity |]);
    intros e He; cbn [In] in He;
    repeat (destruct He as [<- | He]; [exact I |]);
    destruct He.
Qed.

(** X10. Over any sequence of calls the store only grows at its end: the
    stored users stay, in their order; at most one user is added per call,
    and each added user is the subject of one of the calls. *)
Theorem store_is_append_only (ops : list Op) (w : World) :
  exists added,
    users (snd (runOps ops w)) = users w ++ added
    /\ length added <= length ops
    /\ forall u, In u added -> exists o, In o ops /\ subject o = u.
Proof.
  revert w. induction ops as [|o ops IH]; intros w.
  - exists []. cbn. rewrite app_nil_r. repeat split; [lia | intros u []].
  - rewrite runOps_cons. cbn [snd].
    destruct (IH (snd (runOp o w))) as (added & E & Hlen & Hsub).
    destruct (runOp_store o w) as [[Eo | [_ Eo]] _]; rewrite E, Eo.
    + exists added. split; [reflexivity |]. split; [cbn; lia |].
      intros u Hu. destruct (Hsub u Hu) as (o' & Ho' & Hs).
      exists o'. split; [now right | exact Hs].
    + exists (subject o :: added). rewrite <- app_assoc.
      split; [reflexivity |]. split; [cbn; lia |].
      intros u [<- | Hu].
      * exists o. split; [now left | reflexivity].
      * destruct (Hsub u Hu) as (o' & Ho' & Hs).
        exists o'. split; [now right | exact Hs].
Qed.

(* ================================================================== *)
(** ** Activation *)

Lemma activate_run (env : Env) (w : World) :
  activate env w =
  let offer :=
    if Nat.eqb (length (users w)) 0
    then [EExecuteCommand "git-switcher.setupUser"] else [] in
  let u := probedUser env in
  let shown :=
    if truthy (name u) then interpolate (name u)
    else "Git Switcher - No User Set" in
  let t := trace w ++ offer ++ probeEvents env in
  match find (sameUser u) (users w) with
  | Some _ => (Returned tt, mkWorld (users w) (t ++ [EStatusBarText shown]))
  | None =>
      let l := users w ++ [u] in
      if updateResolves env l
      then (Returned tt,
            mkWorld l (t ++ [EUpdate l; EStatusBarText shown]))
      else (Returned tt,
            mkWorld (users w)
              (t ++ [EUpdate l;
                     EStatusBarText "Git Switcher - Setup Required"]))
  end.
Proof.
  unfold activate, tryCatch, bind, getUsersList, ret, emit.
  destruct (Nat.eqb (length (users w)) 0);
    rewrite getCurrentUser_run; cbn zeta; cbn [users trace];
    destruct (find (sameUser (probedUser env)) (users w));
    try destruct (updateResolves env (users w ++ [probedUser env]));
    cbn [users trace app]; rewrite <- ?app_assoc; cbn [app];
    try rewrite app_nil_r; reflexivity.
Qed.

Lemma shown_name_not_blank (u : User) :
  (if truthy (name u) then interpolate (name u)
   else "Git Switcher - No User Set") <> "".
Proof.
  destruct (name u) as [|s]; simpl; [discriminate |].
  destruct (String.eqb_spec s ""); simpl; [discriminate | assumption].
Qed.

Lemma filter_isStatusBarText_probeEvents (env : Env) :
  filter isStatusBarText (probeEvents env) = [].
Proof.
  unfold probeEvents.
  destruct (workspaceFolders env) as [[|folder rest]|];
    destruct (exec env readCommand (probeCwd env)); reflexivity.
Qed.

(** X11. Activation sets the text of the status bar exactly once, as its
    last effect, and never to the empty string: the name of the current
    user when it is a non-empty string, a fallback for an empty or
    [undefined] name, and the text of the [.catch] handler when
    [getCurrentUser] rejects. *)
Theorem activate_status_bar_never_blank (env : Env) (w : World) :
  exists before text,
    trace (snd (activate env w)) = trace w ++ before ++ [EStatusBarText text]
    /\ filter isStatusBarText before = []
    /\ text <> ""
    /\ text =
       match fst (getCurrentUser env w) with
       | Thrown _ => "Git Switcher - Setup Required"
       | Returned u =>
           if truthy (name u) then interpolate (name u)
           else "Git Switcher - No User Set"
       end.
Proof.
  rewrite activate_run, getCurrentUser_run. cbn zeta.
  set (offer := if Nat.eqb (length (users w)) 0
                then [EExecuteCommand "git-switcher.setupUser"] else []).
  assert (Hoffer : filter isStatusBarText offer = [])
    by (subst offer; destruct (Nat.eqb (length (users w)) 0); reflexivity).
  pose proof (filter_isStatusBarText_probeEvents env) as Hprobe.
  pose proof (shown_name_not_blank (probedUser env)) as Hshown.
  destruct (find (sameUser (probedUser env)) (users w)).
  - cbn [fst snd trace].
    exists (offer ++ probeEvents env). eexists.
    split; [now rewrite <- !app_assoc |].
    split; [now rewrite filter_app, Hoffer, Hprobe |].
    split; [exact Hshown | reflexivity].
  - destruct (updateResolves env (users w ++ [probedUser env]));
      cbn [fst snd trace];
      exists (offer ++ probeEvents env
              ++ [EUpdate (users w ++ [probedUser env])]); eexists;
      (split; [now rewrite <- !app_assoc |]);
      (split; [now rewrite !filter_app, Hoffer, Hprobe |]);
      (split; [| reflexivity]).
    + exact Hshown.
    + discriminate.
Qed.

(** X12. Activation asks for the setup command exactly when no user is
    stored at that moment, and then before anything else; it asks for no
    other command. *)
Theorem activate_offers_setup_iff_store_empty (env : Env) (w : World) :
  exists added,
    trace (snd (activate env w)) = trace w ++ added
    /\ (forall c, In (EExecuteCommand c) added ->
                  c = "git-switcher.setupUser" /\ users w = [])
    /\ (users w = [] ->
        exists later,
          added = EExecuteCommand "git-switcher.setupUser" :: later).
Proof.
  rewrite activate_run. cbn zeta.
  assert (Hprobe : forall c, ~ In (EExecuteCommand c) (probeEvents env)).
  { intros c H. unfold probeEvents in H.
    destruct (workspaceFolders env) as [[|folder rest]|];
      destruct (exec env readCommand (probeCwd env)); not_among H. }
  assert (Hcases :
    forall tail : list Event,
      (forall c, ~ In (EExecuteCommand c) tail) ->
      let added :=
        (if Nat.eqb (length (users w)) 0
         then [EExecuteCommand "git-switcher.setupUser"] else [])
        ++ probeEvents env ++ tail in
      (forall c, In (EExecuteCommand c) added ->
                 c = "git-switcher.setupUser" /\ users w = [])
      /\ (users w = [] ->
          exists later,
            added = EExecuteCommand "git-switcher.setupUser" :: later)).
  { intros tail Htail. cbn zeta. destruct (users w) as [|u0 l0]; cbn.
    - split; [| intros _; eexists; reflexivity].
      intros c [H | H]; [now injection H as <- |].
      apply in_app_or in H. destruct H as [H | H];
        [now apply Hprobe in H | now apply Htail in H].
    - split; [| discriminate].
      intros c H. apply in_app_or in H. destruct H as [H | H];
        [now apply Hprobe in H | now apply Htail in H]. }
  destruct (find (sameUser (probedUser env)) (users w));
    [| destruct (updateResolves env (users w ++ [probedUser env]))];
    cbn [snd trace]; rewrite <- !app_assoc;
    (eexists; split; [reflexivity |]);
    apply Hcases; intros c H; not_among H.
Qed.

(** X13. After activation the current user is stored, or the settings
    could not be written and the store is as it was. *)
Theorem activate_registers_current_user (env : Env) (w : World) :
  fst (activate env w) = Returned tt
  /\ (In (probedUser env) (users (snd (activate env w)))
      \/ (updateResolves env (users w ++ [probedUser env]) = false
          /\ users (snd (activate env w)) = users w)).
Proof.
  rewrite activate_run. cbn zeta.
  destruct (find (sameUser (probedUser env)) (users w)) eqn:Ef.
  - cbn [fst snd users]. split; [reflexivity |]. left.
    now apply find_sameUser_Some in Ef.
  - destruct (updateResolves env (users w ++ [probedUser env]));
      cbn [fst snd users]; (split; [reflexivity |]).
    + left. apply in_or_app. right. now left.
    + right. now split.
Qed.

(* ================================================================== *)
(** ** The setup command *)

Lemma nth_error_userItems (l : list User) (i : nat) :
  nth_error (userItems l) (S i)
  = option_map (fun user => mkItem (name user) (email user)) (nth_error l i).
Proof. unfold userItems. cbn [nth_error]. apply nth_error_map. Qed.

Lemma scope_picked (j : nat) :
  j < 2 ->
  exists item,
    nth_error scopeItems j = Some item
    /\ value_eqb (label item) (str "Global") = Nat.eqb j 1.
Proof.
  intros H. destruct j as [|[|j]]; [| | lia]; eexists; split; reflexivity.
Qed.

Lemma setUser_none_keeps_store
    (env : Env) (user : User) (global : bool) (w : World) :
  fst (setUser env user global w) = Returned None ->
  users (snd (setUser env user global w)) = users w.
Proof.
  rewrite setUser_run.
  destruct (workspaceFolders env) as [[|p ps]|]; try reflexivity.
  split_setUser env user p w; intros H; try reflexivity; discriminate H.
Qed.

Lemma setUser_some_stored
    (env : Env) (user applied : User) (global : bool) (w : World) :
  fst (setUser env user global w) = Returned (Some applied) ->
  applied = user /\ In user (users (snd (setUser env user global w))).
Proof.
  intros H. destruct (runOp_store (Apply env user global) w) as [_ Hs].
  destruct (Hs applied H) as [-> Hin]. now split.
Qed.

Lemma setupUser_run (env : Env) (answers : Answers) (screen : Screen)
    (w : World) :
  setupUser env answers screen w =
  match showQuickPick (userItems (users w)) (pickedUser answers) with
  | None => (Returned screen, w)
  | Some selectedUser =>
      if value_eqb (label selectedUser) (str addNewLabel) then
        if truthy (enteredName answers) && truthy (enteredEmail answers) then
          match showQuickPick scopeItems (pickedScope answers) with
          | None => (Returned screen, w)
          | Some selectedScope =>
              let global := value_eqb (label selectedScope) (str "Global") in
              afterApply
                (interpolate (enteredName answers) ++ " added and set "
                 ++ scopeWord global)%string screen
                (setUser env
                   (mkUser (enteredName answers) (enteredEmail answers))
                   global w)
          end
        else
          (Returned screen,
           mkWorld (users w)
             (trace w
              ++ [EShowErrorMessage
                    "All fields are required to add a new user"]))
      else
        match showQuickPick scopeItems (pickedScope answers) with
        | None => (Returned screen, w)
        | Some selectedScope =>
            let global := value_eqb (label selectedScope) (str "Global") in
            afterApply
              (interpolate (label selectedUser) ++ " selected and set "
               ++ scopeWord global)%string screen
              (setUser env
                 (mkUser (label selectedUser)
                    (orElse (description selectedUser) ""))
                 global w)
        end
  end.
Proof.
  unfold setupUser, bind, getUsersList, ret, emit, afterApply.
  destruct (showQuickPick (userItems (users w)) (pickedUser answers))
    as [selectedUser|]; [| reflexivity].
  destruct (value_eqb (label selectedUser) (str addNewLabel)).
  - destruct (truthy (enteredName answers) && truthy (enteredEmail answers));
      [| reflexivity].
    destruct (showQuickPick scopeItems (pickedScope answers)) as [scope|];
      [| reflexivity].
    cbn zeta. cbn [name].
    destruct (setUser env _ _ w) as [[[applied|]|e] w']; reflexivity.
  - destruct (showQuickPick scopeItems (pickedScope answers)) as [scope|];
      [| reflexivity].
    cbn zeta.
    destruct (setUser env _ _ w) as [[[applied|]|e] w']; reflexivity.
Qed.

(** X14. Dismissing the first quick pick changes nothing at all.
    Dismissing the scope pick applies nothing: the screen and the stored
    users are the same and no command is run. *)
Theorem setupUser_dismissed
    (env : Env) (answers : Answers) (screen : Screen) (w : World) :
  (pickedUser answers = None ->
   setupUser env answers screen w = (Returned screen, w))
  /\ (pickedScope answers = None ->
      fst (setupUser env answers screen w) = Returned screen
      /\ users (snd (setupUser env answers screen w)) = users w
      /\ forall c cwd,
           In (EExec c cwd) (trace (snd (setupUser env answers screen w))) ->
           In (EExec c cwd) (trace w)).
Proof.
  rewrite setupUser_run. split.
  - intros ->. reflexivity.
  - intros ->. cbn [showQuickPick].
    destruct (showQuickPick (userItems (users w)) (pickedUser answers))
      as [selectedUser|]; [| now repeat split].
    destruct (value_eqb (label selectedUser) (str addNewLabel));
      [| now repeat split].
    destruct (truthy (enteredName answers) && truthy (enteredEmail answers));
      [now repeat split |].
    cbn [fst snd users trace]. repeat split.
    intros c cwd. apply exec_not_added.
    intros e [<- | []]. discriminate.
Qed.

(** X15. Choosing the entry for a new user and leaving the name or the
    email empty or dismissed shows "All fields are required to add a new
    user" and does nothing else: no command, no change of the store or of
    the screen. *)
Theorem setupUser_requires_both_fields
    (env : Env) (answers : Answers) (screen : Screen) (w : World) :
  pickedUser answers = Some 0 ->
  truthy (enteredName answers) = false
  \/ truthy (enteredEmail answers) = false ->
  setupUser env answers screen w =
  (Returned screen,
   mkWorld (users w)
     (trace w
      ++ [EShowErrorMessage "All fields are required to add a new user"])).
Proof.
  intros Hpick Hfield. rewrite setupUser_run, Hpick.
  cbn [showQuickPick userItems nth_error label].
  assert (E : value_eqb (str addNewLabel) (str addNewLabel) = true)
    by now apply value_eqb_eq.
  rewrite E.
  assert (F : truthy (enteredName answers) && truthy (enteredEmail answers)
              = false).
  { destruct Hfield as [-> | ->]; [reflexivity | apply andb_false_r]. }
  now rewrite F.
Qed.

(** X16. Choosing a stored user whose name is not the label of the first
    entry and whose email is a string applies exactly that user, with the
    chosen scope, and never changes the store; the status bar shows the
    name and a message is shown exactly when [setUser] returned the
    user. *)
Theorem setupUser_selects_stored_user
    (env : Env) (answers : Answers) (screen : Screen) (w : World)
    (i j : nat) (u : User) :
  pickedUser answers = Some (S i) ->
  nth_error (users w) i = Some u ->
  name u <> str addNewLabel ->
  email u <> undefined ->
  pickedScope answers = Some j -> j < 2 ->
  let global := Nat.eqb j 1 in
  snd (setupUser env answers screen w) = snd (setUser env u global w)
  /\ users (snd (setupUser env answers screen w)) = users w
  /\ fst (setupUser env answers screen w)
     = Returned
         match fst (setUser env u global w) with
         | Returned (Some _) =>
             mkScreen (name u)
               (informationMessages screen
                ++ [(interpolate (name u) ++ " selected and set "
                     ++ scopeWord global)%string])
         | _ => screen
         end.
Proof.
  intros Hpick Hnth Hname Hemail Hscope Hj. cbn zeta.
  rewrite setupUser_run, Hpick, Hscope. cbn [showQuickPick].
  rewrite nth_error_userItems, Hnth. cbn [option_map label description].
  destruct (value_eqb (name u) (str addNewLabel)) eqn:E;
    [apply value_eqb_eq in E; contradiction |].
  destruct (scope_picked j Hj) as (item & -> & ->).
  assert (Hor : orElse (email u) "" = email u).
  { unfold orElse. destruct (email u) as [|s]; [contradiction |]. simpl.
    destruct (String.eqb_spec s ""); [now subst | reflexivity]. }
  rewrite Hor. cbn zeta.
  assert (Hu : mkUser (name u) (email u) = u) by now destruct u.
  rewrite Hu.
  assert (Hkeep : users (snd (setUser env u (Nat.eqb j 1) w)) = users w).
  { apply (runOp_present (Apply env u (Nat.eqb j 1)) w).
    cbn [subject]. now apply nth_error_In in Hnth. }
  destruct (setUser_returns env u (Nat.eqb j 1) w) as [r Hr].
  pose proof (fun applied =>
                setUser_some_stored env u applied (Nat.eqb j 1) w) as Hsome.
  destruct (setUser env u (Nat.eqb j 1) w) as [out w'] eqn:Es.
  cbn [fst snd] in *. subst out.
  destruct r as [applied|]; cbn [afterApply fst snd].
  - destruct (Hsome applied eq_refl) as [-> _]. now repeat split.
  - now repeat split.
Qed.

Lemma afterApply_setUser
    (shown : string) (screen : Screen) (env : Env) (user : User)
    (global : bool) (w : World) :
  snd (afterApply shown screen (setUser env user global w))
  = snd (setUser env user global w)
  /\ (fst (setUser env user global w) = Returned (Some user) ->
      fst (afterApply shown screen (setUser env user global w))
      = Returned (mkScreen (name user)
                    (informationMessages screen ++ [shown])))
  /\ (fst (setUser env user global w) = Returned None ->
      fst (afterApply shown screen (setUser env user global w))
      = Returned screen).
Proof.
  destruct (setUser env user global w) as [[[applied|]|e] w'];
    cbn [afterApply fst snd]; repeat split; intros H;
    try discriminate H; try reflexivity.
  now injection H as ->.
Qed.

(** X17. Choosing the entry for a new user and entering a non-empty name
    and a non-empty email applies the user made of the two, with the
    chosen scope.  When [setUser] returns the user, the user is stored, the
    status bar shows the name and one message is shown; when it returns
    [undefined], the screen and the store are as they were. *)
Theorem setupUser_adds_new_user
    (env : Env) (answers : Answers) (screen : Screen) (w : World)
    (n e : string) (j : nat) :
  pickedUser answers = Some 0 ->
  enteredName answers = str n -> enteredEmail answers = str e ->
  n <> "" -> e <> "" ->
  pickedScope answers = Some j -> j < 2 ->
  let newUser := mkUser (str n) (str e) in
  let global := Nat.eqb j 1 in
  snd (setupUser env answers screen w) = snd (setUser env newUser global w)
  /\ (fst (setUser env newUser global w) = Returned (Some newUser) ->
      fst (setupUser env answers screen w)
      = Returned (mkScreen (str n)
                    (informationMessages screen
                     ++ [(n ++ " added and set " ++ scopeWord global)%string]))
      /\ In newUser (users (snd (setupUser env answers screen w))))
  /\ (fst (setUser env newUser global w) = Returned None ->
      fst (setupUser env answers screen w) = Returned screen
      /\ users (snd (setupUser env answers screen w)) = users w).
Proof.
  intros Hpick Hn He Hn0 He0 Hscope Hj. cbn zeta.
  rewrite setupUser_run, Hpick, Hscope, Hn, He.
  cbn [showQuickPick userItems nth_error label].
  assert (E : value_eqb (str addNewLabel) (str addNewLabel) = true)
    by now apply value_eqb_eq.
  rewrite E.
  assert (F : truthy (str n) && truthy (str e) = true).
  { simpl. apply String.eqb_neq in Hn0, He0. now rewrite Hn0, He0. }
  rewrite F.
  destruct (scope_picked j Hj) as (item & -> & ->). cbn zeta.
  cbn [interpolate].
  destruct (afterApply_setUser
              (n ++ " added and set " ++ scopeWord (Nat.eqb j 1))%string
              screen env (mkUser (str n) (str e)) (Nat.eqb j 1) w)
    as (Hsnd & Hsome & Hnone).
  rewrite Hsnd. split; [reflexivity |]. split.
  - intros H. split; [exact (Hsome H) |].
    now apply (setUser_some_stored env _ _ _ _ H).
  - intros H. split; [exact (Hnone H) |].
    now apply setUser_none_keeps_store.
Qed.

(** X18. The branch of the handler is chosen by the label, not by the
    position: picking a stored user whose name is the label of the first
    entry does what picking the first entry does. *)
Theorem setupUser_label_collision
    (env : Env) (answers : Answers) (screen : Screen) (w : World)
    (i : nat) (u : User) :
  pickedUser answers = Some (S i) ->
  nth_error (users w) i = Some u ->
  name u = str addNewLabel ->
  setupUser env answers screen w
  = setupUser env
      (mkAnswers (Some 0) (enteredName answers) (enteredEmail answers)
         (pickedScope answers))
      screen w.
Proof.
  intros Hpick Hnth Hname. rewrite !setupUser_run, Hpick.
  cbn [pickedUser enteredName enteredEmail pickedScope showQuickPick].
  rewrite nth_error_userItems, Hnth.
  cbn [option_map userItems nth_error label]. rewrite Hname.
  reflexivity.
Qed.

(** X19. The handler never rejects, and it changes the screen only after
    a successful application: either the screen is as it was, or the
    status bar shows the name of a user that is now stored and exactly one
    information message was added. *)
Theorem setupUser_screen_follows_success
    (env : Env) (answers : Answers) (screen : Screen) (w : World) :
  exists screen',
    fst (setupUser env answers screen w) = Returned screen'
    /\ (screen' = screen
        \/ exists user shown,
             statusBarText screen' = name user
             /\ informationMessages screen'
                = informationMessages screen ++ [shown]
             /\ In user (users (snd (setupUser env answers screen w)))).
Proof.
  assert (Hafter : forall shown user global,
    exists screen',
      fst (afterApply shown screen (setUser env user global w))
      = Returned screen'
      /\ (screen' = screen
          \/ exists user0 shown0,
               statusBarText screen' = name user0
               /\ informationMessages screen'
                  = informationMessages screen ++ [shown0]
               /\ In user0
                    (users (snd (afterApply shown screen
                                   (setUser env user global w)))))).
  { intros shown user global.
    destruct (afterApply_setUser shown screen env user global w)
      as (Hsnd & Hsome & Hnone).
    rewrite Hsnd.
    destruct (setUser_returns env user global w) as [[applied|] Hr].
    - destruct (setUser_some_stored env _ _ _ _ Hr) as [-> Hin].
      eexists. split; [exact (Hsome Hr) |].
      right. exists user, shown. now repeat split.
    - eexists. split; [exact (Hnone Hr) | now left]. }
  rewrite setupUser_run.
  destruct (showQuickPick (userItems (users w)) (pickedUser answers))
    as [selectedUser|]; [| eexists; split; [reflexivity | now left]].
  destruct (value_eqb (label selectedUser) (str addNewLabel)).
  - destruct (truthy (enteredName answers) && truthy (enteredEmail answers));
      [| eexists; split; [reflexivity | now left]].
    destruct (showQuickPick scopeItems (pickedScope answers));
      [apply Hafter | eexists; split; [reflexivity | now left]].
  - destruct (showQuickPick scopeItems (pickedScope answers));
      [apply Hafter | eexists; split; [reflexivity | now left]].
Qed.

(** X20. A stored user without email (as a one-line output of the read
    command leaves it) is not applied as stored: the handler applies the
    same name with the empty string as email, which is another identity. *)
Theorem setupUser_selects_user_without_email
    (env : Env) (answers : Answers) (screen : Screen) (w : World)
    (i j : nat) (u : User) :
  pickedUser answers = Some (S i) ->
  nth_error (users w) i = Some u ->
  name u <> str addNewLabel ->
  email u = undefined ->
  pickedScope answers = Some j -> j < 2 ->
  snd (setupUser env answers screen w)
  = snd (setUser env (mkUser (name u) (str "")) (Nat.eqb j 1) w)
  /\ mkUser (name u) (str "") <> u.
Proof.
  intros Hpick Hnth Hname Hemail Hscope Hj.
  rewrite setupUser_run, Hpick, Hscope. cbn [showQuickPick].
  rewrite nth_error_userItems, Hnth. cbn [option_map label description].
  destruct (value_eqb (name u) (str addNewLabel)) eqn:E;
    [apply value_eqb_eq in E; contradiction |].
  destruct (scope_picked j Hj) as (item & -> & ->).
  rewrite Hemail. cbn zeta. unfold orElse. cbn [truthy].
  split.
  - apply afterApply_setUser.
  - intros H. rewrite <- H in Hemail. discriminate Hemail.
Qed.

(** X21. [setUser] runs at most two commands, both in the first workspace
    folder: first the repository query, for either scope, then the write
    command, unless the scope is local and the query failed.  Without a
    workspace folder it runs none. *)
Theorem setUser_commands
    (env : Env) (user : User) (global : bool) (w : World) :
  exists added,
    trace (snd (setUser env user global w)) = trace w ++ added
    /\ filter isExec added =
       match workspaceFolders env with
       | None | Some [] => []
       | Some (repoPath :: _) =>
           EExec revParseCommand (Some repoPath)
           :: match exec env revParseCommand (Some repoPath), global with
              | ExecErr, false => []
              | _, _ => [EExec (setCommand user global) (Some repoPath)]
              end
       end.
Proof.
  rewrite setUser_run.
  destruct (workspaceFolders env) as [[|p ps]|] eqn:Ews;
    cbn [fst snd trace];
    try (eexists; split; reflexivity).
  split_setUser env user p w;
    rewrite <- ?app_assoc; cbn [app];
    eexists; split; reflexivity.
Qed.

(* ================================================================== *)
(** ** The further theorems at concrete runs *)

Lemma currentIdentity_reads_two_lines_witness :
  exec envPadded readCommand (Some "/repo")
  = ExecOk (line "  Alice" ++ line "alice@x.com  ")%string
  /\ fst (currentIdentity envPadded (Some "/repo") emptyWorld)
     = Returned alice.
Proof.
  split; [reflexivity |].
  exact (currentIdentity_reads_two_lines
           envPadded (Some "/repo") emptyWorld "  Alice" "alice@x.com  "
           eq_refl eq_refl eq_refl eq_refl eq_refl).
Defined.

Lemma getCurrentUser_fields_witness :
  fst (getCurrentUser envAlice emptyWorld) = Returned alice
  /\ exists n, name alice = str n /\ noLineFeed n = true
               /\ (n = EmptyString \/ startsPlain n = true).
Proof.
  split; [reflexivity |].
  exact (proj1 (getCurrentUser_fields envAlice emptyWorld alice eq_refl)).
Defined.

Lemma currentIdentity_ignores_later_lines_witness :
  exec envThreeLines readCommand (Some "/repo")
  = ExecOk (line "Alice" ++ line "alice@x.com" ++ line "more")%string
  /\ fst (currentIdentity envThreeLines (Some "/repo") emptyWorld)
     = Returned alice.
Proof.
  split; [reflexivity |].
  exact (currentIdentity_ignores_later_lines
           envThreeLines (Some "/repo") emptyWorld "Alice" "alice@x.com"
           (line "more") eq_refl eq_refl eq_refl eq_refl eq_refl).
Defined.

Lemma getCurrentUser_without_workspace_witness :
  workspaceFolders envNoWorkspace = None
  /\ (fst (getCurrentUser envNoWorkspace emptyWorld)
      = Returned (probedUser envNoWorkspace)
      \/ (fst (getCurrentUser envNoWorkspace emptyWorld) = Thrown UpdateError
          /\ updateResolves envNoWorkspace
               (users emptyWorld ++ [probedUser envNoWorkspace]) = false)).
Proof.
  split; [reflexivity |].
  exact (proj2 (getCurrentUser_without_workspace
                  envNoWorkspace emptyWorld (or_introl eq_refl))).
Defined.

Lemma setUser_updates_only_after_write_witness :
  In (EUpdate [alice; bob])
     (trace (snd (setUser envInsideRepo bob false (mkWorld [alice] []))))
  /\ (In (EUpdate [alice; bob]) []
      \/ ([alice; bob] = [alice] ++ [bob]
          /\ ~ In bob [alice]
          /\ exists repoPath rest stdout,
               workspaceFolders envInsideRepo = Some (repoPath :: rest)
               /\ exec envInsideRepo (setCommand bob false) (Some repoPath)
                  = ExecOk stdout
               /\ (false = true
                   \/ exec envInsideRepo revParseCommand (Some repoPath)
                      <> ExecErr))).
Proof.
  assert (H : In (EUpdate [alice; bob])
                (trace (snd (setUser envInsideRepo bob false
                               (mkWorld [alice] []))))).
  { right. right. left. reflexivity. }
  split; [exact H |].
  exact (setUser_updates_only_after_write
           envInsideRepo bob false (mkWorld [alice] []) [alice; bob] H).
Defined.

Lemma setupUser_requires_both_fields_witness :
  setupUser envInsideRepo (mkAnswers (Some 0) (str "Bob") (str "") (Some 1))
    blankScreen (mkWorld [alice] [])
  = (Returned blankScreen,
     mkWorld [alice]
       [EShowErrorMessage "All fields are required to add a new user"]).
Proof.
  exact (setupUser_requires_both_fields
           envInsideRepo (mkAnswers (Some 0) (str "Bob") (str "") (Some 1))
           blankScreen (mkWorld [alice] []) eq_refl (or_intror eq_refl)).
Defined.

Lemma alice_not_add_label : name alice <> str addNewLabel.
Proof. discriminate. Defined.

Lemma alice_has_email : email alice <> undefined.
Proof. discriminate. Defined.

Lemma setupUser_selects_stored_user_witness :
  users (snd (setupUser envInsideRepo
                (mkAnswers (Some 2) undefined undefined (Some 1))
                blankScreen (mkWorld [bob; alice] [])))
  = [bob; alice]
  /\ fst (setupUser envInsideRepo
            (mkAnswers (Some 2) undefined undefined (Some 1))
            blankScreen (mkWorld [bob; alice] []))
     = Returned (mkScreen (str "Alice") ["Alice selected and set globally"]).
Proof.
  pose proof (setupUser_selects_stored_user
                envInsideRepo
                (mkAnswers (Some 2) undefined undefined (Some 1))
                blankScreen (mkWorld [bob; alice] []) 1 1 alice
                eq_refl eq_refl alice_not_add_label alice_has_email
                eq_refl (le_n 2)) as H.
  exact (conj (proj1 (proj2 H)) (proj2 (proj2 H))).
Defined.

Lemma Bob_not_blank : "Bob" <> "".
Proof. discriminate. Defined.

Lemma bob_mail_not_blank : "bob@x.com" <> "".
Proof. discriminate. Defined.

Lemma setupUser_adds_new_user_witness :
  fst (setUser envInsideRepo bob false (mkWorld [alice] []))
  = Returned (Some bob)
  /\ fst (setupUser envInsideRepo
            (mkAnswers (Some 0) (str "Bob") (str "bob@x.com") (Some 0))
            blankScreen (mkWorld [alice] []))
     = Returned (mkScreen (str "Bob") ["Bob added and set locally"])
  /\ In bob (users (snd (setupUser envInsideRepo
                           (mkAnswers (Some 0) (str "Bob") (str "bob@x.com")
                              (Some 0))
                           blankScreen (mkWorld [alice] [])))).
Proof.
  split; [reflexivity |].
  exact (proj1 (proj2 (setupUser_adds_new_user
                         envInsideRepo
                         (mkAnswers (Some 0) (str "Bob") (str "bob@x.com")
                            (Some 0))
                         blankScreen (mkWorld [alice] []) "Bob" "bob@x.com" 0
                         eq_refl eq_refl eq_refl Bob_not_blank
                         bob_mail_not_blank eq_refl
                         (le_S 1 1 (le_n 1))))
           eq_refl).
Defined.

Lemma setupUser_label_collision_witness :
  setupUser envInsideRepo (mkAnswers (Some 1) (str "Bob") undefined (Some 0))
    blankScreen (mkWorld [addLabelUser] [])
  = (Returned blankScreen,
     mkWorld [addLabelUser]
       [EShowErrorMessage "All fields are required to add a new user"]).
Proof.
  rewrite (setupUser_label_collision
             envInsideRepo
             (mkAnswers (Some 1) (str "Bob") undefined (Some 0))
             blankScreen (mkWorld [addLabelUser] []) 0 addLabelUser
             eq_refl eq_refl eq_refl).
  reflexivity.
Defined.

Lemma nameless_not_add_label : name nameless <> str addNewLabel.
Proof. discriminate. Defined.

Lemma setupUser_selects_user_without_email_witness :
  users (snd (setupUser envInsideRepo
                (mkAnswers (Some 1) undefined undefined (Some 0))
                blankScreen (mkWorld [nameless] [])))
  = [nameless; mkUser (str "Dana") (str "")].
Proof.
  rewrite (proj1 (setupUser_selects_user_without_email
                    envInsideRepo
                    (mkAnswers (Some 1) undefined undefined (Some 0))
                    blankScreen (mkWorld [nameless] []) 0 0 nameless
                    eq_refl eq_refl nameless_not_add_label eq_refl
                    eq_refl (le_S 1 1 (le_n 1)))).
  reflexivity.
Defined.
